(** * cf-resolve-gh-ref: the worker of [index.js], embedded and verified

    [index.js] holds two functions.  [resolve] asks GitHub for the
    reference advertisement of a repository
    ([/info/refs?service=git-upload-pack]), parses it and looks a
    reference up in it; [handleRequest] reads the query parameters and
    the token of the inbound request, calls [resolve] and turns its
    outcome into a response.

    The embedding is shallow.  A JavaScript string is the list of its
    UTF-16 code units.  A value that may be [null] or [undefined] is an
    [option].  An [async] function is a tree ([Async]) whose only
    suspension point is the call of [fetch]; running it against an
    environment that answers the call gives the list of the calls made
    and the outcome of the promise. *)

From Stdlib Require Import List NArith ZArith Bool Lia String Ascii.
From Stdlib Require DecimalString.
Import ListNotations.

(** ** Strings *)

Module Js.

(** A string is the sequence of its code units. *)
Definition jsstring := list N.

(** The code units of a literal. *)
Definition lit (s : string) : jsstring :=
  map N_of_ascii (list_ascii_of_string s).

Arguments lit s%_string : simpl never.

Definition eqb (a b : jsstring) : bool :=
  if list_eq_dec N.eq_dec a b then true else false.

(** [ToBoolean] of a value that is a string or [null]: [null] and the
    empty string are falsy. *)
Definition truthy (v : option jsstring) : bool :=
  match v with
  | Some (_ :: _) => true
  | _ => false
  end.

(** [a || b] *)
Definition or_else (a b : option jsstring) : option jsstring :=
  if truthy a then a else b.

(** A string-or-null inside a template literal. *)
Definition template (v : option jsstring) : jsstring :=
  match v with
  | Some s => s
  | None => lit "null"
  end.

(** [s.startsWith(p)] *)
Fixpoint startsWith (p s : jsstring) : bool :=
  match p, s with
  | [], _ => true
  | c :: p', d :: s' => (c =? d)%N && startsWith p' s'
  | _ :: _, [] => false
  end.

(** [s.split(sep)] for a separator of one code unit: one part more than
    there are separators, the empty string gives one empty part. *)
Fixpoint split (sep : N) (s : jsstring) : list jsstring :=
  match s with
  | [] => [[]]
  | c :: s' =>
      if (c =? sep)%N then [] :: split sep s'
      else match split sep s' with
           | p :: ps => (c :: p) :: ps
           | [] => [[c]]
           end
  end.

(** [a.join(sep)], which is also what an array becomes in a template
    literal (with [","]). *)
Fixpoint join (sep : jsstring) (a : list jsstring) : jsstring :=
  match a with
  | [] => []
  | [x] => x
  | x :: rest => x ++ sep ++ join sep rest
  end.

(** [a.includes(x)] on an array of strings. *)
Definition includes (x : jsstring) (a : list jsstring) : bool :=
  existsb (eqb x) a.

(** [s.substr(n)] *)
Definition substr (n : nat) (s : jsstring) : jsstring := skipn n s.

(** [a.slice(n)] *)
Definition slice {A} (n : nat) (a : list A) : list A := skipn n a.

(** A number in a template literal; the numbers of this program are
    HTTP status codes, integers. *)
Definition of_number (z : Z) : jsstring :=
  lit (DecimalString.NilZero.string_of_int (Z.to_int z)).

Definition LF : N := 10.
Definition SP : N := 32.

(** The class [\s] of a regular expression: WhiteSpace and
    LineTerminator of ECMAScript. *)
Definition is_space (c : N) : bool :=
  ((9 <=? c) && (c <=? 13) || (c =? 32) || (c =? 160) || (c =? 5760)
   || (8192 <=? c) && (c <=? 8202) || (c =? 8232) || (c =? 8233)
   || (c =? 8239) || (c =? 8287) || (c =? 12288) || (c =? 65279))%N.

(** The longest prefix of non-space code units: what [\S+] takes,
    greedily, when it is the end of the pattern. *)
Fixpoint non_space_run (s : jsstring) : jsstring :=
  match s with
  | c :: s' => if is_space c then [] else c :: non_space_run s'
  | [] => []
  end.

(** [s] without the prefix [p], when it starts with it. *)
Fixpoint strip_prefix (p s : jsstring) : option jsstring :=
  match p, s with
  | [], _ => Some s
  | c :: p', d :: s' => if (c =? d)%N then strip_prefix p' s' else None
  | _ :: _, [] => None
  end.

(** [s.match(/<literal>(\S+)/)]: [None] is [null], [Some g] is the match
    array, of which only the group [g] is used.  The leftmost position
    where the literal is followed by a non-space code unit matches. *)
Fixpoint match_literal_group (literal s : jsstring) : option jsstring :=
  match strip_prefix literal s with
  | Some rest =>
      match non_space_run rest with
      | (_ :: _) as g => Some g
      | [] => match s with
              | _ :: s' => match_literal_group literal s'
              | [] => None
              end
      end
  | None => match s with
            | _ :: s' => match_literal_group literal s'
            | [] => None
            end
  end.

(** The 64 digits of base64. *)
Definition base64_digits : jsstring :=
  lit "ABCDEFGHIJKLMNOPQRSTUVWXYZabcdefghijklmnopqrstuvwxyz0123456789+/".

Definition base64_digit (i : N) : N := nth (N.to_nat i) base64_digits 0%N.

Definition pad : N := 61.

Fixpoint base64 (bs : list N) : jsstring :=
  match bs with
  | [] => []
  | [a] => [base64_digit (a / 4); base64_digit (a mod 4 * 16); pad; pad]
  | [a; b] =>
      [base64_digit (a / 4); base64_digit (a mod 4 * 16 + b / 16);
       base64_digit (b mod 16 * 4); pad]
  | a :: b :: c :: rest =>
      base64_digit (a / 4) :: base64_digit (a mod 4 * 16 + b / 16)
      :: base64_digit (b mod 16 * 4 + c / 64) :: base64_digit (c mod 64)
      :: base64 rest
  end%N.

(** [btoa(s)]: base64 of a string of code units below 256; any other
    string makes it throw, which is [None] here. *)
Definition btoa (s : jsstring) : option jsstring :=
  if forallb (fun c => c <? 256)%N s then Some (base64 s) else None.

End Js.

Import Js.

(** ** Errors, responses and promises *)

(** What [index.js] can tell about a thrown value: whether it is a
    [TypeError], its name (for [toString]), its message and its
    [status] property, [None] when it has none. *)
Inductive ErrorClass :=
| TypeError
| Error
| OtherError (name : jsstring).

Record JsError := mkError {
  err_class : ErrorClass;
  message : jsstring;
  status : option Z
}.

Definition error_name (c : ErrorClass) : jsstring :=
  match c with
  | TypeError => lit "TypeError"
  | Error => lit "Error"
  | OtherError n => n
  end.

(** [Error.prototype.toString], used by a template literal. *)
Definition error_toString (e : JsError) : jsstring :=
  match error_name (err_class e), message e with
  | n, [] => n
  | [], m => m
  | n, m => n ++ lit ": " ++ m
  end.

(** [err instanceof TypeError] *)
Definition is_TypeError (e : JsError) : bool :=
  match err_class e with
  | TypeError => true
  | _ => false
  end.

(** [ToBoolean(err.status)]: [undefined] and [0] are falsy. *)
Definition status_truthy (s : option Z) : bool :=
  match s with
  | Some z => negb (z =? 0)%Z
  | None => false
  end.

(** The response of the remote service as [resolve] reads it:
    [resp.status], and the string that [await resp.text()] gives (reading
    the body is taken to succeed). *)
Record RemoteResponse := mkRemote {
  remote_status : Z;
  remote_text : jsstring
}.

(** [resp.ok]: the status is in the range 200-299. *)
Definition ok (resp : RemoteResponse) : bool :=
  ((200 <=? remote_status resp) && (remote_status resp <=? 299))%Z.

(** The second argument of [fetch]. *)
Record FetchOpts := mkOpts {
  opt_headers : list (jsstring * jsstring)
}.

(** How the promise of [fetch] settles. *)
Inductive FetchOutcome :=
| Fulfilled (resp : RemoteResponse)
| FetchRejected (e : JsError).

(** An asynchronous computation of [index.js]: it has a value, has
    thrown, or awaits [fetch(url, opts)]. *)
Inductive Async (A : Type) : Type :=
| Resolved (a : A)
| Rejected (e : JsError)
| AwaitFetch (url : jsstring) (opts : FetchOpts) (k : FetchOutcome -> Async A).

Arguments Resolved {A} a.
Arguments Rejected {A} e.
Arguments AwaitFetch {A} url opts k.

(** [p.then(f)] *)
Fixpoint and_then {A B} (p : Async A) (f : A -> Async B) : Async B :=
  match p with
  | Resolved a => f a
  | Rejected e => Rejected e
  | AwaitFetch u o k => AwaitFetch u o (fun r => and_then (k r) f)
  end.

(** [p.catch(g)] *)
Fixpoint catch {A} (p : Async A) (g : JsError -> Async A) : Async A :=
  match p with
  | Resolved a => Resolved a
  | Rejected e => g e
  | AwaitFetch u o k => AwaitFetch u o (fun r => catch (k r) g)
  end.

(** One call of [fetch] with the way it settled. *)
Record FetchCall := mkCall {
  call_url : jsstring;
  call_opts : FetchOpts;
  call_outcome : FetchOutcome
}.

(** The remote side: how each call of [fetch] settles. *)
Definition Remote := jsstring -> FetchOpts -> FetchOutcome.

(** Running a computation against a remote side: the calls made, in
    order, and how the promise settles. *)
Fixpoint run {A} (remote : Remote) (p : Async A)
  : list FetchCall * (JsError + A) :=
  match p with
  | Resolved a => ([], inr a)
  | Rejected e => ([], inl e)
  | AwaitFetch u o k =>
      let r := remote u o in
      let (calls, out) := run remote (k r) in
      (mkCall u o r :: calls, out)
  end.

Definition calls {A} (remote : Remote) (p : Async A) : list FetchCall :=
  fst (run remote p).

Definition outcome {A} (remote : Remote) (p : Async A) : JsError + A :=
  snd (run remote p).

(** The remote side answered a call of this run with [resp]. *)
Definition responded {A} (remote : Remote) (p : Async A)
    (resp : RemoteResponse) : Prop :=
  exists u o, In (mkCall u o (Fulfilled resp)) (calls remote p).

(** The argument of [resolve]; a query parameter that is missing is
    [null]. *)
Record ResolveArgs := mkArgs {
  owner : option jsstring;
  repo : option jsstring;
  ref : option jsstring;
  token : option jsstring
}.

(** The object [resolve] returns; a property is [None] when it is
    [undefined]. *)
Record ResolutionResult := mkResult {
  sha : option jsstring;
  fqRef : option jsstring
}.

(** The body given to [new Response]: a text, or [JSON.stringify] of a
    result, which is kept as it is. *)
Inductive Body :=
| Json (result : ResolutionResult)
| Text (text : jsstring).

(** A response object, as [new Response] makes it when it does. *)
Record Response := mkResponse {
  res_status : Z;
  content_type : jsstring;
  res_body : Body
}.

(** The statuses a response with a body cannot have. *)
Definition null_body_status (s : Z) : bool :=
  ((s =? 101) || (s =? 103) || (s =? 204) || (s =? 205) || (s =? 304))%Z.

(** The messages of the two errors the constructor throws; their text is
    the engine's, no statement below depends on it. *)
Definition range_message : jsstring :=
  lit "Responses may only be constructed with status codes in the range 200 to 599, inclusive.".

Definition null_body_message : jsstring :=
  lit "Response with null body status (101, 204, 205, or 304) cannot have a body.".

(** [new Response(body, { status, headers: { 'content-type': ... } })]
    with a body that is a string: the constructor throws a [RangeError]
    for a status outside 200-599 and a [TypeError] for a status that
    allows no body.  A status is an integer as HTTP has them; what the
    constructor makes of other numbers is not modelled. *)
Definition new_Response (body : Body) (status : Z) (contentType : jsstring)
  : JsError + Response :=
  if ((status <? 200) || (599 <? status))%Z then
    inl (mkError (OtherError (lit "RangeError")) range_message None)
  else if null_body_status status then
    inl (mkError TypeError null_body_message None)
  else inr (mkResponse status contentType body).

(** A handler that returns a value or throws, as the promise it makes. *)
Definition settle {A} (r : JsError + A) : Async A :=
  match r with
  | inr a => Resolved a
  | inl e => Rejected e
  end.

(** The inbound request: the entries of [new URL(request.url).searchParams]
    and of [request.headers], the header names in lower case as a
    [Headers] object keeps them. *)
Record Request := mkRequest {
  searchParams : list (jsstring * jsstring);
  headers : list (jsstring * jsstring)
}.

(** [entries.get(name)]: the value of the first entry of that name, or
    [null]. *)
Definition get (name : jsstring) (entries : list (jsstring * jsstring))
  : option jsstring :=
  match find (fun kv => eqb (fst kv) name) entries with
  | Some kv => Some (snd kv)
  | None => None
  end.

(** The messages of the two errors the engine itself throws; their text
    is the engine's (here V8's), no statement below depends on it. *)
Definition null_index_message : jsstring :=
  lit "Cannot read properties of null (reading '1')".

Definition btoa_message : jsstring :=
  lit "Invalid character".

(** ** [resolve] *)

(** Lines 126-136: the search terms a supplied [ref] gives. *)
Definition searchTerms_of_ref (ref : option jsstring) : list jsstring :=
  match ref with
  | Some ((_ :: _) as ref) =>
      if startsWith (lit "refs/") ref then [ref]
      else [lit "refs/heads/" ++ ref; lit "refs/tags/" ++ ref]
  | _ => []
  end.

(** Line 143: [lines[1].match(/symref=HEAD:(\S+)/)[1]]; indexing [null]
    throws a [TypeError].  The line exists, [lines] has three entries
    or more by then. *)
Definition default_branch (lines : list jsstring) : JsError + jsstring :=
  match match_literal_group (lit "symref=HEAD:") (nth 1 lines []) with
  | Some g => inr g
  | None => inl (mkError TypeError null_index_message None)
  end.

(** Lines 126-136 and 141-144 together: the search terms in the end. *)
Definition searchTerms (ref : option jsstring) (lines : list jsstring)
  : JsError + list jsstring :=
  if truthy ref then inr (searchTerms_of_ref ref)
  else match default_branch lines with
       | inr g => inr (searchTerms_of_ref ref ++ [g])
       | inl e => inl e
       end.

(** Lines 147-149: the predicate of [filter]. *)
Definition is_candidate (searchTerms : list jsstring) (row : jsstring) : bool :=
  let parts := split SP row in
  (List.length parts =? 2)%nat && includes (nth 1 parts []) searchTerms.

(** Line 150: the function of [map]. *)
Definition skip_pkt_len (row : jsstring) : list jsstring :=
  split SP (substr 4 row).

(** Line 151: [{ sha: r[0], fqRef: r[1] }]. *)
Definition result_of_parts (r : list jsstring) : ResolutionResult :=
  mkResult (nth_error r 0) (nth_error r 1).

(** Lines 147-151. *)
Definition first_match (searchTerms : list jsstring) (lines : list jsstring)
  : option ResolutionResult :=
  let result := map skip_pkt_len (filter (is_candidate searchTerms) lines) in
  match result with
  | r0 :: _ => Some (result_of_parts r0)
  | [] => None
  end.

(** Lines 125-151: from the text of the response on. *)
Definition parse (ref : option jsstring) (data : jsstring)
  : Async (option ResolutionResult) :=
  let lines := split LF data in
  if (List.length lines <? 3)%nat then
    Rejected (mkError Error (lit "corrupted response: " ++ join (lit ",") lines) None)
  else
    match searchTerms ref lines with
    | inl e => Rejected e
    | inr terms => Resolved (first_match terms (slice 2 lines))
    end.

(** Lines 105-151: from the settled [fetch] on. *)
Definition after_fetch (a : ResolveArgs) (r : FetchOutcome)
  : Async (option ResolutionResult) :=
  match r with
  | FetchRejected e => Rejected e
  | Fulfilled resp =>
      if negb (ok resp) then
        if ((remote_status resp =? 401)%Z && negb (truthy (token a)))
           || (remote_status resp =? 404)%Z
        then
          Rejected (mkError Error
            (lit "repository not found: " ++ template (owner a) ++ lit "/"
               ++ template (repo a))
            (Some 404%Z))
        else
          Rejected (mkError Error
            (lit "failed to fetch git repo info (status: "
               ++ of_number (remote_status resp) ++ lit ", body: "
               ++ remote_text resp ++ lit ")")
            (Some (remote_status resp)))
      else parse (ref a) (remote_text resp)
  end.

(** Lines 99-103. *)
Definition fetch_opts (token : option jsstring) : JsError + FetchOpts :=
  if truthy token then
    match btoa (lit "any_user:" ++ template token) with
    | Some b => inr (mkOpts [(lit "Authorization", lit "Basic " ++ b)])
    | None =>
        inl (mkError (OtherError (lit "InvalidCharacterError")) btoa_message None)
    end
  else inr (mkOpts []).

(** Line 98. *)
Definition info_refs_url (a : ResolveArgs) : jsstring :=
  lit "https://github.com/" ++ template (owner a) ++ lit "/"
    ++ template (repo a) ++ lit ".git/info/refs?service=git-upload-pack".

Definition resolve (a : ResolveArgs) : Async (option ResolutionResult) :=
  if negb (truthy (owner a)) || negb (truthy (repo a)) then
    Rejected (mkError TypeError (lit "owner and repo are mandatory parameters") None)
  else
    match fetch_opts (token a) with
    | inl e => Rejected e
    | inr opts => AwaitFetch (info_refs_url a) opts (after_fetch a)
    end.

(** ** [handleRequest] *)

(** Lines 36-41 and 45-50: what is passed to [resolve]. *)
Definition resolve_args (request : Request) : ResolveArgs :=
  let params := searchParams request in
  {| owner := get (lit "owner") params;
     repo := get (lit "repo") params;
     ref := get (lit "ref") params;
     token := or_else (get (lit "GITHUB_TOKEN") params)
                      (get (lit "x-github-token") (headers request)) |}.

(** Lines 51-66: the handler given to [then]. *)
Definition on_result (result : option ResolutionResult) : JsError + Response :=
  match result with
  | Some r => new_Response (Json r) 200 (lit "application/json")
  | None => new_Response (Text (lit "ref not found")) 404 (lit "text/plain")
  end.

(** Lines 67-85: the handler given to [catch]. *)
Definition on_error (err : JsError) : JsError + Response :=
  if is_TypeError err then
    new_Response (Text (message err)) 400 (lit "text/plain")
  else
    match status err with
    | Some s =>
        if status_truthy (status err) then
          new_Response
            (Text (lit "failed to fetch git repo info (status: " ++ of_number s
                     ++ lit ", message: " ++ message err ++ lit ")"))
            (if (500 <=? s) && (s <=? 599) then 502 else s)%Z
            (lit "text/plain")
        else
          new_Response
            (Text (lit "failed to fetch git repo info: " ++ error_toString err
                     ++ lit ")"))
            500 (lit "text/plain")
    | None =>
        new_Response
          (Text (lit "failed to fetch git repo info: " ++ error_toString err
                   ++ lit ")"))
          500 (lit "text/plain")
    end.

(** Lines 45-85: an error thrown in a handler rejects the promise the
    handler makes; what the handler of [then] throws goes to the one of
    [catch], what the handler of [catch] throws goes to the caller. *)
Definition handleRequest (request : Request) : Async Response :=
  catch
    (and_then (resolve (resolve_args request))
       (fun result => settle (on_result result)))
    (fun err => settle (on_error err)).

(** ** Words of the specification *)

(** The line holds [symref=HEAD:] followed by a code unit that is not
    white space. *)
Definition has_symref (line : jsstring) : Prop :=
  exists pre c post,
    line = pre ++ lit "symref=HEAD:" ++ c :: post /\ is_space c = false.

(** The row is a line for the reference [name]: two parts separated by
    one space, the second of which is [name]. *)
Definition line_for (name row : jsstring) : Prop :=
  exists tok, split SP row = [tok; name].

(** The row is the pkt-line of [sha] and [name]: a length field [len] of
    four code units, the hash, a space, the name. *)
Definition pkt_line (len sha name row : jsstring) : Prop :=
  List.length len = 4 /\ split SP row = [len ++ sha; name].

(** The row matches one of the search terms. *)
Definition matches (terms : list jsstring) (row : jsstring) : Prop :=
  exists name, In name terms /\ line_for name row.

(** ** Reading base64 back *)

(** The place of a code unit among the digits of base64. *)
Fixpoint index_of (c : N) (digits : list N) : option N :=
  match digits with
  | [] => None
  | d :: digits' =>
      if (c =? d)%N then Some 0%N else option_map N.succ (index_of c digits')
  end.

Definition base64_value (c : N) : option N := index_of c base64_digits.

(** The bytes of four code units of base64: three, or two or one when
    the end is padded. *)
Definition unbase64_quad (x0 x1 x2 x3 : N) : option (list N) :=
  match base64_value x0, base64_value x1 with
  | Some d0, Some d1 =>
      if (x2 =? pad)%N then
        if (x3 =? pad)%N then Some [d0 * 4 + d1 / 16]%N else None
      else
        match base64_value x2 with
        | Some d2 =>
            if (x3 =? pad)%N then
              Some [d0 * 4 + d1 / 16; d1 mod 16 * 16 + d2 / 4]%N
            else
              match base64_value x3 with
              | Some d3 =>
                  Some [d0 * 4 + d1 / 16; d1 mod 16 * 16 + d2 / 4;
                        d2 mod 4 * 64 + d3]%N
              | None => None
              end
        | None => None
        end
  | _, _ => None
  end.

(** The bytes a base64 text stands for, [None] when it is not one. *)
Fixpoint unbase64 (s : jsstring) : option (list N) :=
  match s with
  | [] => Some []
  | x0 :: x1 :: x2 :: x3 :: rest =>
      match unbase64_quad x0 x1 x2 x3, unbase64 rest with
      | Some q, Some bs => Some (q ++ bs)
      | _, _ => None
      end
  | _ => None
  end.

(** ** Sample inputs *)

Module Sample.

(** A remote side that answers every call with one response. *)
Definition answer (status : Z) (text : jsstring) : Remote :=
  fun _ _ => Fulfilled (mkRemote status text).

Definition service_line : jsstring := lit "001e# service=git-upload-pack".

Definition head_line : jsstring :=
  lit "000001552222 HEAD" ++ [0%N]
    ++ lit "multi_ack side-band-64k symref=HEAD:refs/heads/main agent=git/github".

(** A tag and a branch of one short name, the tag first. *)
Definition advertisement : jsstring :=
  join [LF]
    [service_line; head_line;
     lit "003d1111 refs/tags/main";
     lit "003e2222 refs/heads/main";
     lit "003e3333 refs/heads/v1.0.0";
     lit "003d4444 refs/tags/v1.0.0";
     lit "0000"].

(** One row whose first part is shorter than a length field. *)
Definition short_token : jsstring :=
  join [LF] [service_line; head_line; lit "ab refs/heads/x"; lit "0000"].

(** What an empty repository advertises: no [HEAD], no [symref]. *)
Definition empty_repository : jsstring :=
  join [LF]
    [service_line;
     lit "000000400000 capabilities^{}" ++ [0%N] ++ lit "multi_ack agent=git/github";
     lit "0000"].

Definition args (ref : option jsstring) : ResolveArgs :=
  mkArgs (Some (lit "adobe")) (Some (lit "helix-fetch")) ref None.

Definition request (ref : list (jsstring * jsstring)) : Request :=
  mkRequest ([(lit "owner", lit "adobe"); (lit "repo", lit "helix-fetch")] ++ ref) [].

Definition with_ref (ref : jsstring) : list (jsstring * jsstring) :=
  [(lit "ref", ref)].

(** A request that carries a token in both places. *)
Definition two_tokens : Request :=
  mkRequest
    [(lit "owner", lit "adobe"); (lit "repo", lit "helix-fetch");
     (lit "GITHUB_TOKEN", lit "from-parameter")]
    [(lit "x-github-token", lit "from-header")].

(** A request whose [repo] parameter is the empty string. *)
Definition empty_repo : Request :=
  mkRequest [(lit "owner", lit "adobe"); (lit "repo", [])] [].

(** A remote side on which every call of [fetch] fails with [e]. *)
Definition unreachable (e : JsError) : Remote :=
  fun _ _ => FetchRejected e.

(** What [fetch] throws when the connection fails. *)
Definition network_error : JsError :=
  mkError TypeError (lit "Network connection lost.") None.

(** A request whose token has a code unit above 255 (the euro sign). *)
Definition euro_token : Request :=
  mkRequest
    [(lit "owner", lit "adobe"); (lit "repo", lit "helix-fetch");
     (lit "GITHUB_TOKEN", [8364%N])]
    [].

(** The rows of [advertisement] under two other first lines, which would
    be lines for [main] if they were rows. *)
Definition other_header : jsstring :=
  join [LF]
    [lit "003e9999 refs/heads/main"; lit "003d8888 refs/heads/main";
     lit "003d1111 refs/tags/main";
     lit "003e2222 refs/heads/main";
     lit "003e3333 refs/heads/v1.0.0";
     lit "003d4444 refs/tags/v1.0.0";
     lit "0000"].

End Sample.

(** * Properties *)

(** ** The embedding on sample inputs *)

Example split_empty : split SP [] = [[]].
Proof. reflexivity. Qed.

Example split_line :
  split SP (lit "0032abc refs/heads/main") = [lit "0032abc"; lit "refs/heads/main"].
Proof. reflexivity. Qed.

Example btoa_sample : btoa (lit "any_user:abc") = Some (lit "YW55X3VzZXI6YWJj").
Proof. vm_compute. reflexivity. Qed.

Example btoa_padding : btoa (lit "any_user:t") = Some (lit "YW55X3VzZXI6dA==").
Proof. vm_compute. reflexivity. Qed.

Example of_number_404 : of_number 404 = lit "404".
Proof. vm_compute. reflexivity. Qed.

Example match_sample :
  match_literal_group (lit "symref=HEAD:")
    (lit "0000015523 HEADmulti_ack symref=HEAD:refs/heads/main agent=git")
  = Some (lit "refs/heads/main").
Proof. vm_compute. reflexivity. Qed.

Example resolve_full_ref :
  run (Sample.answer 200 Sample.advertisement)
    (resolve (Sample.args (Some (lit "refs/heads/main"))))
  = ([mkCall (lit "https://github.com/adobe/helix-fetch.git/info/refs?service=git-upload-pack")
        (mkOpts []) (Fulfilled (mkRemote 200 Sample.advertisement))],
     inr (Some (mkResult (Some (lit "2222")) (Some (lit "refs/heads/main"))))).
Proof. vm_compute. reflexivity. Qed.

Example resolve_default_branch :
  outcome (Sample.answer 200 Sample.advertisement) (resolve (Sample.args None))
  = inr (Some (mkResult (Some (lit "2222")) (Some (lit "refs/heads/main")))).
Proof. vm_compute. reflexivity. Qed.

Example token_becomes_basic_auth :
  map call_opts
    (calls (Sample.answer 200 Sample.advertisement) (handleRequest Sample.two_tokens))
  = [mkOpts [(lit "Authorization", lit "Basic YW55X3VzZXI6ZnJvbS1wYXJhbWV0ZXI=")]].
Proof. vm_compute. reflexivity. Qed.

(** ** Strings and arrays *)

Section StringFacts.

Lemma eqb_eq (a b : jsstring) : eqb a b = true <-> a = b.
Proof.
  unfold eqb. destruct (list_eq_dec N.eq_dec a b); split; congruence.
Qed.

Lemma includes_In (x : jsstring) (a : list jsstring) :
  includes x a = true <-> In x a.
Proof.
  unfold includes. rewrite existsb_exists. split.
  - intros [y [Hy He]]. apply eqb_eq in He. now subst.
  - intros H. exists x. split; [assumption | now apply eqb_eq].
Qed.

Variable sep : N.

Lemma split_not_nil (s : jsstring) : split sep s <> [].
Proof.
  destruct s as [|c s]; simpl; [discriminate|].
  destruct (c =? sep)%N; [discriminate|].
  destruct (split sep s); discriminate.
Qed.

(** No part of a split holds the separator. *)
Lemma split_parts_free (s : jsstring) :
  Forall (fun p => ~ In sep p) (split sep s).
Proof.
  induction s as [|c s IH]; simpl.
  - constructor; [intros [] | constructor].
  - destruct (N.eqb_spec c sep) as [->|Hc].
    + constructor; [intros [] | assumption].
    + destruct (split sep s) as [|p ps].
      * constructor; [|constructor]. intros [H|[]]. congruence.
      * inversion IH; subst. constructor; [|assumption].
        intros [H|H]; [congruence | contradiction].
Qed.

Lemma split_free (s : jsstring) : ~ In sep s -> split sep s = [s].
Proof.
  induction s as [|c s IH]; simpl; intros H; [reflexivity|].
  destruct (N.eqb_spec c sep) as [->|Hc]; [exfalso; auto|].
  rewrite IH; [reflexivity | intuition].
Qed.

Lemma split_app (a b : jsstring) :
  ~ In sep a -> split sep (a ++ sep :: b) = a :: split sep b.
Proof.
  induction a as [|c a IH]; simpl; intros H.
  - now rewrite N.eqb_refl.
  - destruct (N.eqb_spec c sep) as [->|Hc]; [exfalso; auto|].
    rewrite IH; [reflexivity | intuition].
Qed.

(** The string is its parts joined by the separator. *)
Lemma join_split (s : jsstring) : join [sep] (split sep s) = s.
Proof.
  induction s as [|c s IH]; simpl; [reflexivity|].
  destruct (N.eqb_spec c sep) as [->|Hc].
  - pose proof (split_not_nil s) as Hn.
    destruct (split sep s) as [|p ps]; [congruence|].
    simpl in *. now rewrite IH.
  - pose proof (split_not_nil s) as Hn.
    destruct (split sep s) as [|p ps]; [congruence|].
    destruct ps; simpl in *; now rewrite <- IH.
Qed.

(** Two parts: one separator, between them. *)
Lemma split_two (s a b : jsstring) :
  split sep s = [a; b] <-> s = a ++ sep :: b /\ ~ In sep a /\ ~ In sep b.
Proof.
  split.
  - intros H. pose proof (split_parts_free s) as Hf. rewrite H in Hf.
    inversion Hf as [|? ? Ha Hf']; subst. inversion Hf' as [|? ? Hb _]; subst.
    repeat split; try assumption.
    rewrite <- (join_split s), H. reflexivity.
  - intros (-> & Ha & Hb). rewrite split_app by assumption.
    now rewrite split_free.
Qed.

End StringFacts.

Lemma strip_prefix_Some (p s rest : jsstring) :
  strip_prefix p s = Some rest <-> s = p ++ rest.
Proof.
  revert s. induction p as [|c p IH]; intros s; simpl.
  - split; congruence.
  - destruct s as [|d s]; [split; discriminate|].
    destruct (N.eqb_spec c d) as [->|Hc].
    + rewrite IH. split; congruence.
    + split; [discriminate | congruence].
Qed.

Lemma startsWith_app (p s : jsstring) : startsWith p (p ++ s) = true.
Proof.
  induction p as [|c p IH]; simpl; [reflexivity|].
  now rewrite N.eqb_refl.
Qed.

Lemma startsWith_prefix (p s : jsstring) :
  startsWith p s = true <-> exists rest, s = p ++ rest.
Proof.
  split.
  - revert s. induction p as [|c p IH]; intros s H; simpl in *.
    + now exists s.
    + destruct s as [|d s]; [discriminate|].
      apply andb_true_iff in H as [Hc H]. apply N.eqb_eq in Hc. subst d.
      destruct (IH _ H) as [rest ->]. now exists rest.
  - intros [rest ->]. apply startsWith_app.
Qed.

(** ** The pattern of the default branch *)

Lemma match_literal_group_eq (literal s : jsstring) :
  match_literal_group literal s =
  match strip_prefix literal s with
  | Some rest =>
      match non_space_run rest with
      | (_ :: _) as g => Some g
      | [] => match s with
              | _ :: s' => match_literal_group literal s'
              | [] => None
              end
      end
  | None => match s with
            | _ :: s' => match_literal_group literal s'
            | [] => None
            end
  end.
Proof. destruct s; reflexivity. Qed.

(** [match] gives [null] exactly on the lines where the literal is
    nowhere followed by a code unit that is not white space. *)
Lemma match_literal_group_None (literal s : jsstring) :
  match_literal_group literal s = None <->
  ~ exists pre c post, s = pre ++ literal ++ c :: post /\ is_space c = false.
Proof.
  induction s as [|d s IH]; rewrite match_literal_group_eq.
  - split.
    + intros _ (pre & c & post & H & _).
      destruct pre; destruct literal; discriminate.
    + intros _. destruct (strip_prefix literal []) as [rest|] eqn:Hp; [|reflexivity].
      apply strip_prefix_Some in Hp. destruct literal; [|discriminate].
      simpl in Hp. subst rest. reflexivity.
  - destruct (strip_prefix literal (d :: s)) as [rest|] eqn:Hp.
    + apply strip_prefix_Some in Hp.
      destruct (non_space_run rest) as [|g0 g] eqn:Hr.
      * rewrite IH. split.
        -- intros Hn (pre & c & post & H & Hc). destruct pre as [|x pre].
           ++ simpl in H. rewrite Hp in H. apply app_inv_head in H. subst rest.
              simpl in Hr. rewrite Hc in Hr. discriminate.
           ++ apply Hn. exists pre, c, post. split; [|assumption].
              simpl in H. congruence.
        -- intros Hn (pre & c & post & H & Hc). apply Hn.
           exists (d :: pre), c, post. split; [|assumption]. simpl. congruence.
      * split; [discriminate|]. intros Hn. exfalso. apply Hn.
        destruct rest as [|c rest]; [discriminate|]. simpl in Hr.
        destruct (is_space c) eqn:Hc; [discriminate|].
        exists [], c, rest. split; [|assumption]. simpl. assumption.
    + rewrite IH. split.
      * intros Hn (pre & c & post & H & Hc). destruct pre as [|x pre].
        -- simpl in H. apply (proj2 (strip_prefix_Some _ _ _)) in H. congruence.
        -- apply Hn. exists pre, c, post. split; [|assumption].
           simpl in H. congruence.
      * intros Hn (pre & c & post & H & Hc). apply Hn.
        exists (d :: pre), c, post. split; [|assumption]. simpl. congruence.
Qed.

(** ** The filter and the map of [resolve] *)

Lemma is_candidate_iff (terms : list jsstring) (row : jsstring) :
  is_candidate terms row = true <->
  exists p0 p1, split SP row = [p0; p1] /\ In p1 terms.
Proof.
  unfold is_candidate. rewrite andb_true_iff, Nat.eqb_eq, includes_In. split.
  - intros [Hl Hi]. destruct (split SP row) as [|p0 [|p1 [|? ?]]]; try discriminate.
    exists p0, p1. split; [reflexivity | exact Hi].
  - intros (p0 & p1 & -> & Hi). split; [reflexivity | exact Hi].
Qed.

(** A row of two parts whose first part has the four code units of the
    length field: skipping them leaves the rest of the first part, and
    the second part. *)
Lemma skip_pkt_len_two (row p0 p1 : jsstring) :
  split SP row = [p0; p1] -> 4 <= List.length p0 ->
  skip_pkt_len row = [skipn 4 p0; p1].
Proof.
  intros H Hl. apply split_two in H as (-> & H0 & H1).
  unfold skip_pkt_len, substr. rewrite skipn_app.
  replace (4 - List.length p0) with 0 by lia. simpl skipn at 2.
  apply split_two. repeat split; [|assumption].
  intros Hin. apply H0. rewrite <- (firstn_skipn 4 p0).
  apply in_or_app. now right.
Qed.

(** The first candidate of the rows decides. *)
Lemma first_match_first (terms : list jsstring) (pre : list jsstring)
    (row : jsstring) (post : list jsstring) :
  Forall (fun r => is_candidate terms r = false) pre ->
  is_candidate terms row = true ->
  first_match terms (pre ++ row :: post)
  = Some (result_of_parts (skip_pkt_len row)).
Proof.
  intros Hpre Hrow. unfold first_match.
  induction Hpre as [|r pre Hr _ IH]; simpl.
  - rewrite Hrow. reflexivity.
  - rewrite Hr. exact IH.
Qed.

Lemma first_match_none (terms : list jsstring) (rows : list jsstring) :
  Forall (fun r => is_candidate terms r = false) rows ->
  first_match terms rows = None.
Proof.
  intros H. unfold first_match. induction H as [|r rows Hr _ IH]; simpl.
  - reflexivity.
  - rewrite Hr. exact IH.
Qed.

(** What is returned comes from a candidate row. *)
Lemma first_match_Some (terms : list jsstring) (rows : list jsstring)
    (res : ResolutionResult) :
  first_match terms rows = Some res ->
  exists pre row post,
    rows = pre ++ row :: post
    /\ Forall (fun r => is_candidate terms r = false) pre
    /\ is_candidate terms row = true
    /\ res = result_of_parts (skip_pkt_len row).
Proof.
  unfold first_match. induction rows as [|r rows IH]; simpl; [discriminate|].
  destruct (is_candidate terms r) eqn:Hr.
  - simpl. intros H. exists [], r, rows. repeat split; auto. congruence.
  - intros H. destruct (IH H) as (pre & row & post & -> & Hpre & Hrow & ->).
    exists (r :: pre), row, post. repeat split; auto.
Qed.

(** ** Running [resolve] and [handleRequest] *)

(** [then] and [catch] with handlers that return or throw at once: the
    calls are those of the promise, the handlers see how it settled. *)
Lemma run_handlers {A B} (remote : Remote) (p : Async A)
    (f : A -> JsError + B) (g : JsError -> JsError + B) :
  run remote (catch (and_then p (fun a => settle (f a))) (fun e => settle (g e)))
  = (calls remote p,
     match outcome remote p with
     | inr a => match f a with inr b => inr b | inl e => g e end
     | inl e => g e
     end).
Proof.
  unfold calls, outcome. induction p as [a|e|u o k IH]; simpl.
  - destruct (f a) as [e|b]; simpl; [destruct (g e)|]; reflexivity.
  - destruct (g e); reflexivity.
  - rewrite IH. destruct (run remote (k (remote u o))). reflexivity.
Qed.

(** The constructor accepts the statuses 200-599 that allow a body. *)
Lemma new_Response_accepts (body : Body) (s : Z) (contentType : jsstring) :
  (200 <= s <= 599)%Z -> null_body_status s = false ->
  new_Response body s contentType = inr (mkResponse s contentType body).
Proof.
  intros Hs Hn. unfold new_Response. rewrite Hn.
  destruct (Z.ltb_spec s 200); [lia|]. destruct (Z.ltb_spec 599 s); [lia|].
  reflexivity.
Qed.

(** ... and no other. *)
Lemma new_Response_refuses (body : Body) (s : Z) (contentType : jsstring) :
  (s < 200)%Z \/ (599 < s)%Z \/ null_body_status s = true ->
  exists e, new_Response body s contentType = inl e.
Proof.
  intros H. unfold new_Response.
  destruct (Z.ltb_spec s 200); [eexists; reflexivity|].
  destruct (Z.ltb_spec 599 s); [eexists; reflexivity|].
  destruct H as [H|[H|H]]; try lia. rewrite H. eexists. reflexivity.
Qed.

(** The handler of [then] never throws. *)
Lemma on_result_accepted (result : option ResolutionResult) :
  on_result result
  = inr (match result with
         | Some r => mkResponse 200 (lit "application/json") (Json r)
         | None => mkResponse 404 (lit "text/plain") (Text (lit "ref not found"))
         end).
Proof. destruct result; reflexivity. Qed.

Lemma parse_settled (remote : Remote) (ref : option jsstring) (data : jsstring) :
  calls remote (parse ref data) = [].
Proof.
  unfold parse. destruct (List.length (split LF data) <? 3); [reflexivity|].
  destruct (searchTerms ref (split LF data)); reflexivity.
Qed.

(** After [fetch] nothing else is awaited. *)
Lemma after_fetch_settled (remote : Remote) (a : ResolveArgs) (r : FetchOutcome) :
  calls remote (after_fetch a r) = [].
Proof.
  destruct r as [resp|e]; simpl; [|reflexivity].
  destruct (negb (ok resp)); [|apply parse_settled].
  destruct ((remote_status resp =? 401)%Z && negb (truthy (token a))
            || (remote_status resp =? 404)%Z); reflexivity.
Qed.

(** A run of [resolve] in which the remote side answered: the inputs
    were valid, and the promise settles as the code after [fetch]
    settles on that answer. *)
Lemma resolve_responded (remote : Remote) (a : ResolveArgs) (resp : RemoteResponse) :
  responded remote (resolve a) resp ->
  truthy (owner a) = true /\ truthy (repo a) = true
  /\ outcome remote (resolve a) = outcome remote (after_fetch a (Fulfilled resp)).
Proof.
  unfold responded, calls. intros (u & o & Hin).
  unfold outcome at 1. unfold resolve in *.
  destruct (truthy (owner a)); [|destruct Hin].
  destruct (truthy (repo a)); [|destruct Hin].
  cbn [negb orb] in *.
  destruct (fetch_opts (token a)) as [e|opts]; [destruct Hin|].
  pose proof (after_fetch_settled remote a (remote (info_refs_url a) opts)) as Hs.
  unfold calls in Hs. cbn [run] in *.
  destruct (run remote (after_fetch a (remote (info_refs_url a) opts)))
    as [cs out] eqn:Hr.
  cbn [fst snd] in *. subst cs. destruct Hin as [Hc|[]].
  injection Hc as _ _ Hf. rewrite Hf in Hr.
  unfold outcome. rewrite Hr. auto.
Qed.

Lemma handleRequest_run (remote : Remote) (request : Request) :
  run remote (handleRequest request)
  = (calls remote (resolve (resolve_args request)),
     match outcome remote (resolve (resolve_args request)) with
     | inr result => on_result result
     | inl err => on_error err
     end).
Proof.
  unfold handleRequest. rewrite run_handlers.
  destruct (outcome remote (resolve (resolve_args request))) as [e|result];
    [reflexivity|].
  now rewrite on_result_accepted.
Qed.

Lemma handleRequest_outcome (remote : Remote) (request : Request) :
  outcome remote (handleRequest request)
  = match outcome remote (resolve (resolve_args request)) with
    | inr result => on_result result
    | inl err => on_error err
    end.
Proof. unfold outcome at 1. now rewrite handleRequest_run. Qed.

(** The remote side answered with a success and three lines or more,
    and the search terms could be built: the promise of [resolve] has
    the first match of the lines after the header. *)
Lemma resolve_parsed (remote : Remote) (a : ResolveArgs) (resp : RemoteResponse)
    (terms : list jsstring) :
  responded remote (resolve a) resp ->
  ok resp = true ->
  3 <= List.length (split LF (remote_text resp)) ->
  searchTerms (ref a) (split LF (remote_text resp)) = inr terms ->
  outcome remote (resolve a)
  = inr (first_match terms (slice 2 (split LF (remote_text resp)))).
Proof.
  intros Hr Hok Hlen Hterms. apply resolve_responded in Hr as (_ & _ & ->).
  simpl. rewrite Hok. simpl. unfold parse.
  destruct (Nat.ltb_spec (List.length (split LF (remote_text resp))) 3); [lia|].
  rewrite Hterms. reflexivity.
Qed.

Lemma falsy_cases (v : option jsstring) :
  truthy v = false <-> v = None \/ v = Some [].
Proof.
  destruct v as [[|c s]|]; simpl; split; auto; try discriminate;
    intros [H|H]; discriminate.
Qed.

(** * The claims *)

(** ** The token of the request *)

(** C1, as amended: the token passed to [resolve] is the value of the
    [GITHUB_TOKEN] parameter whenever that parameter is present and not
    empty; the value of the [x-github-token] header is used only when
    the parameter is absent or empty. *)
Theorem token_parameter_first (request : Request) :
  let parameter := get (lit "GITHUB_TOKEN") (searchParams request) in
  let header := get (lit "x-github-token") (headers request) in
  (truthy parameter = true -> token (resolve_args request) = parameter)
  /\ (truthy parameter = false -> token (resolve_args request) = header).
Proof.
  unfold resolve_args, or_else. cbn [token].
  split; intros ->; reflexivity.
Qed.

Lemma token_parameter_first_witness :
  truthy (get (lit "GITHUB_TOKEN") (searchParams Sample.two_tokens)) = true
  /\ token (resolve_args Sample.two_tokens) = Some (lit "from-parameter").
Proof.
  split; [reflexivity|].
  apply (proj1 (token_parameter_first Sample.two_tokens)). reflexivity.
Defined.

(** C1, as stated, fails: the request carries both the header and the
    parameter, neither empty, and the token passed to [resolve] is the
    parameter's value, not the header's. *)
Lemma token_header_not_preferred :
  get (lit "x-github-token") (headers Sample.two_tokens) = Some (lit "from-header")
  /\ get (lit "GITHUB_TOKEN") (searchParams Sample.two_tokens)
     = Some (lit "from-parameter")
  /\ token (resolve_args Sample.two_tokens) = Some (lit "from-parameter")
  /\ token (resolve_args Sample.two_tokens) <> Some (lit "from-header").
Proof.
  split; [reflexivity|]. split; [reflexivity|]. split; [reflexivity|].
  discriminate.
Qed.

(** ** Failures *)

(** C6: when [owner] or [repo] is absent or the empty string, [resolve]
    throws the validation error at once, no call of [fetch] is made, and
    the response of [handleRequest] has status 400. *)
Theorem missing_owner_or_repo_is_400 (a : ResolveArgs) :
  owner a = None \/ owner a = Some [] \/ repo a = None \/ repo a = Some [] ->
  resolve a
  = Rejected (mkError TypeError (lit "owner and repo are mandatory parameters") None)
  /\ forall (remote : Remote) (request : Request),
       resolve_args request = a ->
       run remote (handleRequest request)
       = ([], inr (mkResponse 400 (lit "text/plain")
                     (Text (lit "owner and repo are mandatory parameters")))).
Proof.
  intros H.
  assert (Hv : negb (truthy (owner a)) || negb (truthy (repo a)) = true).
  { apply orb_true_iff.
    destruct H as [H|[H|[H|H]]]; rewrite H; simpl; auto. }
  assert (Hr : resolve a
    = Rejected (mkError TypeError (lit "owner and repo are mandatory parameters") None)).
  { unfold resolve. now rewrite Hv. }
  split; [exact Hr|].
  intros remote request <-. rewrite handleRequest_run.
  unfold calls, outcome. rewrite Hr. reflexivity.
Qed.

Lemma missing_owner_or_repo_is_400_witness :
  repo (resolve_args Sample.empty_repo) = Some []
  /\ run (Sample.answer 200 Sample.advertisement) (handleRequest Sample.empty_repo)
     = ([], inr (mkResponse 400 (lit "text/plain")
                   (Text (lit "owner and repo are mandatory parameters")))).
Proof.
  split; [reflexivity|].
  apply (proj2 (missing_owner_or_repo_is_400 (resolve_args Sample.empty_repo)
                  (or_intror (or_intror (or_intror eq_refl))))).
  reflexivity.
Defined.

(** C4: when the remote side answers with status 404, or with status
    401 while no token was supplied, [resolve] fails with an error of
    status 404 and message [repository not found: <owner>/<repo>], and
    the response of [handleRequest] has status 404. *)
Theorem repository_not_found_is_404 (remote : Remote) (a : ResolveArgs)
    (resp : RemoteResponse) (o r : jsstring) :
  owner a = Some o -> repo a = Some r ->
  responded remote (resolve a) resp ->
  remote_status resp = 404%Z
  \/ (remote_status resp = 401%Z /\ truthy (token a) = false) ->
  outcome remote (resolve a)
  = inl (mkError Error (lit "repository not found: " ++ o ++ lit "/" ++ r)
           (Some 404%Z))
  /\ forall request : Request,
       resolve_args request = a ->
       outcome remote (handleRequest request)
       = inr (mkResponse 404 (lit "text/plain")
                (Text (lit "failed to fetch git repo info (status: 404, message: "
                         ++ lit "repository not found: " ++ o ++ lit "/" ++ r
                         ++ lit ")"))).
Proof.
  intros Ho Hr Hresp Hst.
  assert (Hout : outcome remote (resolve a)
    = inl (mkError Error (lit "repository not found: " ++ o ++ lit "/" ++ r)
             (Some 404%Z))).
  { apply resolve_responded in Hresp as (_ & _ & ->).
    unfold after_fetch, ok. rewrite Ho, Hr.
    destruct Hst as [->|[-> ->]]; reflexivity. }
  split; [exact Hout|].
  intros request <-. rewrite handleRequest_outcome, Hout.
  unfold on_error. cbn [is_TypeError err_class status status_truthy message].
  cbn [Z.eqb negb Z.leb Z.compare Pos.compare Pos.compare_cont andb].
  do 3 f_equal. repeat rewrite <- app_assoc. reflexivity.
Qed.

Lemma repository_not_found_is_404_witness :
  responded (Sample.answer 401 (lit "Repository not found."))
    (resolve (resolve_args (Sample.request [])))
    (mkRemote 401 (lit "Repository not found."))
  /\ truthy (token (resolve_args (Sample.request []))) = false
  /\ outcome (Sample.answer 401 (lit "Repository not found."))
       (handleRequest (Sample.request []))
     = inr (mkResponse 404 (lit "text/plain")
              (Text (lit "failed to fetch git repo info (status: 404, message: repository not found: adobe/helix-fetch)"))).
Proof.
  assert (Hr : responded (Sample.answer 401 (lit "Repository not found."))
                 (resolve (resolve_args (Sample.request [])))
                 (mkRemote 401 (lit "Repository not found."))).
  { eexists. eexists. left. reflexivity. }
  split; [exact Hr|]. split; [reflexivity|].
  apply (proj2 (repository_not_found_is_404
                  (Sample.answer 401 (lit "Repository not found."))
                  (resolve_args (Sample.request [])) _
                  (lit "adobe") (lit "helix-fetch") eq_refl eq_refl Hr
                  (or_intror (conj eq_refl eq_refl))) (Sample.request []) eq_refl).
Defined.




(** C8: when the remote side answers with a success whose body splits
    on line feed into fewer than three lines, [resolve] fails with an
    error that has no status, and the response of [handleRequest] has
    status 500. *)
Theorem too_few_lines_is_500 (remote : Remote) (a : ResolveArgs)
    (resp : RemoteResponse) :
  responded remote (resolve a) resp ->
  ok resp = true ->
  List.length (split LF (remote_text resp)) < 3 ->
  outcome remote (resolve a)
  = inl (mkError Error
           (lit "corrupted response: "
              ++ join (lit ",") (split LF (remote_text resp)))
           None)
  /\ forall request : Request,
       resolve_args request = a ->
       outcome remote (handleRequest request)
       = inr (mkResponse 500 (lit "text/plain")
                (Text (lit "failed to fetch git repo info: "
                         ++ lit "Error: corrupted response: "
                         ++ join (lit ",") (split LF (remote_text resp))
                         ++ lit ")"))).
Proof.
  intros Hresp Hok Hlen.
  assert (Hout : outcome remote (resolve a)
    = inl (mkError Error
             (lit "corrupted response: "
                ++ join (lit ",") (split LF (remote_text resp)))
             None)).
  { apply resolve_responded in Hresp as (_ & _ & ->).
    unfold after_fetch. rewrite Hok. cbn [negb]. unfold parse.
    destruct (Nat.ltb_spec (List.length (split LF (remote_text resp))) 3);
      [reflexivity | lia]. }
  split; [exact Hout|].
  intros request <-. rewrite handleRequest_outcome, Hout.
  unfold on_error. cbn [is_TypeError err_class status]. reflexivity.
Qed.

Lemma too_few_lines_is_500_witness :
  responded (Sample.answer 200 (lit "0000"))
    (resolve (resolve_args (Sample.request []))) (mkRemote 200 (lit "0000"))
  /\ List.length (split LF (lit "0000")) < 3
  /\ outcome (Sample.answer 200 (lit "0000")) (handleRequest (Sample.request []))
     = inr (mkResponse 500 (lit "text/plain")
              (Text (lit "failed to fetch git repo info: Error: corrupted response: 0000)"))).
Proof.
  assert (Hr : responded (Sample.answer 200 (lit "0000"))
                 (resolve (resolve_args (Sample.request [])))
                 (mkRemote 200 (lit "0000"))).
  { eexists. eexists. left. reflexivity. }
  assert (Hl : List.length (split LF (lit "0000")) < 3).
  { vm_compute. lia. }
  split; [exact Hr|]. split; [exact Hl|].
  apply (proj2 (too_few_lines_is_500 (Sample.answer 200 (lit "0000"))
                  (resolve_args (Sample.request [])) _
                  Hr eq_refl Hl) (Sample.request []) eq_refl).
Defined.

(** ** Matching *)

Lemma is_candidate_matches (terms : list jsstring) (row : jsstring) :
  is_candidate terms row = true <-> matches terms row.
Proof.
  rewrite is_candidate_iff. unfold matches, line_for. split.
  - intros (p0 & p1 & Hs & Hi). exists p1. split; [assumption|]. now exists p0.
  - intros (name & Hi & tok & Hs). now exists tok, name.
Qed.

Lemma not_candidates (terms : list jsstring) (rows : list jsstring) :
  Forall (fun row => ~ matches terms row) rows ->
  Forall (fun row => is_candidate terms row = false) rows.
Proof.
  apply Forall_impl. intros row H.
  destruct (is_candidate terms row) eqn:E; [|reflexivity].
  exfalso. apply H. now apply is_candidate_matches.
Qed.

(** The object of a pkt-line: its hash and its name. *)
Lemma pkt_line_result (len sha name row : jsstring) :
  pkt_line len sha name row ->
  result_of_parts (skip_pkt_len row) = mkResult (Some sha) (Some name).
Proof.
  intros [Hl Hs]. rewrite (skip_pkt_len_two _ _ _ Hs).
  - rewrite skipn_app, skipn_all2 by lia.
    replace (4 - List.length len) with 0 by lia. reflexivity.
  - rewrite length_app. lia.
Qed.

(** C3, as amended: a row is kept by the filter exactly when splitting
    it on the space gives exactly two parts and the second part is one
    of the search terms; for such a row whose first part has at least
    four code units, the object built from it has as [sha] the first
    part without its first four code units and as [fqRef] the second
    part, and that object is what [resolve] returns when no earlier row
    is kept. *)
Theorem candidate_rows_and_their_result (terms : list jsstring) (row : jsstring) :
  (is_candidate terms row = true
   <-> exists p0 p1, split SP row = [p0; p1] /\ In p1 terms)
  /\ forall p0 p1 : jsstring,
       split SP row = [p0; p1] -> In p1 terms -> 4 <= List.length p0 ->
       result_of_parts (skip_pkt_len row) = mkResult (Some (skipn 4 p0)) (Some p1)
       /\ forall (remote : Remote) (a : ResolveArgs) (resp : RemoteResponse)
                 (h1 h2 : jsstring) (pre post : list jsstring),
            responded remote (resolve a) resp ->
            ok resp = true ->
            split LF (remote_text resp) = h1 :: h2 :: pre ++ row :: post ->
            searchTerms (ref a) (split LF (remote_text resp)) = inr terms ->
            Forall (fun r => is_candidate terms r = false) pre ->
            outcome remote (resolve a)
            = inr (Some (mkResult (Some (skipn 4 p0)) (Some p1))).
Proof.
  split; [apply is_candidate_iff|].
  intros p0 p1 Hs Hi Hl.
  assert (Hres : result_of_parts (skip_pkt_len row)
                 = mkResult (Some (skipn 4 p0)) (Some p1)).
  { now rewrite (skip_pkt_len_two _ _ _ Hs Hl). }
  split; [exact Hres|].
  intros remote a resp h1 h2 pre post Hresp Hok Hlines Hterms Hpre.
  rewrite (resolve_parsed remote a resp terms Hresp Hok); try assumption.
  - rewrite Hlines. unfold slice. cbn [skipn].
    rewrite first_match_first; [now rewrite Hres | assumption |].
    apply is_candidate_iff. now exists p0, p1.
  - rewrite Hlines. cbn [List.length]. rewrite length_app. cbn [List.length]. lia.
Qed.

Lemma candidate_rows_and_their_result_witness :
  split SP (lit "003d1111 refs/tags/main") = [lit "003d1111"; lit "refs/tags/main"]
  /\ In (lit "refs/tags/main") [lit "refs/heads/main"; lit "refs/tags/main"]
  /\ 4 <= List.length (lit "003d1111")
  /\ result_of_parts (skip_pkt_len (lit "003d1111 refs/tags/main"))
     = mkResult (Some (lit "1111")) (Some (lit "refs/tags/main")).
Proof.
  assert (Hs : split SP (lit "003d1111 refs/tags/main")
               = [lit "003d1111"; lit "refs/tags/main"]) by reflexivity.
  assert (Hi : In (lit "refs/tags/main") [lit "refs/heads/main"; lit "refs/tags/main"]).
  { right. left. reflexivity. }
  assert (Hl : 4 <= List.length (lit "003d1111")).
  { vm_compute. lia. }
  split; [exact Hs|]. split; [exact Hi|]. split; [exact Hl|].
  apply (proj1 (proj2 (candidate_rows_and_their_result
                         [lit "refs/heads/main"; lit "refs/tags/main"]
                         (lit "003d1111 refs/tags/main")) _ _ Hs Hi Hl)).
Defined.

(** C3, as stated, fails: the row [ab refs/heads/x] splits into two
    parts, the second is a search term, and what [resolve] returns for
    it has neither the first part without four code units as [sha] nor
    the second part as [fqRef]. *)
Lemma short_first_part_breaks_result :
  In (lit "ab refs/heads/x") (slice 2 (split LF Sample.short_token))
  /\ split SP (lit "ab refs/heads/x") = [lit "ab"; lit "refs/heads/x"]
  /\ searchTerms (Some (lit "x")) (split LF Sample.short_token)
     = inr [lit "refs/heads/x"; lit "refs/tags/x"]
  /\ outcome (Sample.answer 200 Sample.short_token)
       (resolve (Sample.args (Some (lit "x"))))
     = inr (Some (mkResult (Some (lit "efs/heads/x")) None))
  /\ mkResult (Some (lit "efs/heads/x")) None
     <> mkResult (Some (skipn 4 (lit "ab"))) (Some (lit "refs/heads/x")).
Proof.
  split; [left; reflexivity|].
  split; [reflexivity|].
  split; [reflexivity|].
  split; [vm_compute; reflexivity|].
  discriminate.
Qed.

(** The first row that matches decides what [resolve] returns. *)
Lemma resolve_returns_first (remote : Remote) (a : ResolveArgs)
    (resp : RemoteResponse) (terms : list jsstring)
    (pre : list jsstring) (row : jsstring) (post : list jsstring) :
  responded remote (resolve a) resp ->
  ok resp = true ->
  3 <= List.length (split LF (remote_text resp)) ->
  searchTerms (ref a) (split LF (remote_text resp)) = inr terms ->
  slice 2 (split LF (remote_text resp)) = pre ++ row :: post ->
  Forall (fun r => ~ matches terms r) pre ->
  matches terms row ->
  outcome remote (resolve a) = inr (Some (result_of_parts (skip_pkt_len row))).
Proof.
  intros Hresp Hok Hlen Hterms Hrows Hpre Hrow.
  rewrite (resolve_parsed remote a resp terms Hresp Hok Hlen Hterms), Hrows.
  rewrite first_match_first;
    [reflexivity | now apply not_candidates | now apply is_candidate_matches].
Qed.

Lemma skip_pkt_len_short (row p0 p1 : jsstring) :
  split SP row = [p0; p1] -> List.length p0 < 4 ->
  skip_pkt_len row = [skipn (3 - List.length p0) p1].
Proof.
  intros H Hl. apply split_two in H as (-> & H0 & H1).
  unfold skip_pkt_len, substr. rewrite skipn_app, skipn_all2 by lia.
  replace (4 - List.length p0) with (S (3 - List.length p0)) by lia.
  cbn [skipn app]. apply split_free.
  intros Hin. apply H1. rewrite <- (firstn_skipn (3 - List.length p0) p1).
  apply in_or_app. now right.
Qed.

(** C9: when no row after the two header lines matches a search term,
    [resolve] returns [null] and the response is 404 with the text
    [ref not found]; when a row matches, the first such row in the order
    of the advertisement decides: the object returned has the first part
    of that row without its first four code units as [sha] and the
    second part as [fqRef] (for a first part of fewer than four code
    units: what the four skipped code units leave of the second part as
    [sha], and no [fqRef]), and the response is 200 with its JSON. *)
Theorem no_match_is_404_first_match_returned (remote : Remote) (a : ResolveArgs)
    (resp : RemoteResponse) (terms : list jsstring) (h1 h2 : jsstring)
    (rows : list jsstring) :
  responded remote (resolve a) resp ->
  ok resp = true ->
  split LF (remote_text resp) = h1 :: h2 :: rows ->
  searchTerms (ref a) (split LF (remote_text resp)) = inr terms ->
  (rows <> [] ->
   Forall (fun row => ~ matches terms row) rows ->
   outcome remote (resolve a) = inr None
   /\ forall request : Request,
        resolve_args request = a ->
        outcome remote (handleRequest request)
        = inr (mkResponse 404 (lit "text/plain") (Text (lit "ref not found"))))
  /\ (forall (pre : list jsstring) (row : jsstring) (post : list jsstring)
             (p0 p1 : jsstring),
        rows = pre ++ row :: post ->
        Forall (fun r => ~ matches terms r) pre ->
        split SP row = [p0; p1] ->
        In p1 terms ->
        let result :=
          if (4 <=? List.length p0)%nat
          then mkResult (Some (skipn 4 p0)) (Some p1)
          else mkResult (Some (skipn (3 - List.length p0) p1)) None in
        outcome remote (resolve a) = inr (Some result)
        /\ forall request : Request,
             resolve_args request = a ->
             outcome remote (handleRequest request)
             = inr (mkResponse 200 (lit "application/json") (Json result))).
Proof.
  intros Hresp Hok Hlines Hterms.
  assert (Hlen : rows <> [] -> 3 <= List.length (split LF (remote_text resp))).
  { intros Hne. rewrite Hlines. destruct rows; [contradiction|].
    cbn [List.length]. lia. }
  assert (Hout : rows <> [] ->
            outcome remote (resolve a) = inr (first_match terms rows)).
  { intros Hne.
    rewrite (resolve_parsed remote a resp terms Hresp Hok (Hlen Hne) Hterms).
    now rewrite Hlines. }
  split.
  - intros Hne Hnone. apply not_candidates, first_match_none in Hnone.
    rewrite Hnone in Hout. split; [exact (Hout Hne)|].
    intros request <-. now rewrite handleRequest_outcome, (Hout Hne).
  - intros pre row post p0 p1 Hrows Hpre Hs Hi result.
    assert (Hne : rows <> []).
    { rewrite Hrows. destruct pre; discriminate. }
    assert (Hres : result_of_parts (skip_pkt_len row) = result).
    { unfold result. destruct (Nat.leb_spec 4 (List.length p0)) as [Hl|Hl].
      - now rewrite (skip_pkt_len_two _ _ _ Hs Hl).
      - now rewrite (skip_pkt_len_short _ _ _ Hs Hl). }
    assert (Hsome : outcome remote (resolve a) = inr (Some result)).
    { rewrite (Hout Hne), Hrows, first_match_first.
      - now rewrite Hres.
      - now apply not_candidates.
      - apply is_candidate_iff. now exists p0, p1. }
    split; [exact Hsome|].
    intros request <-. now rewrite handleRequest_outcome, Hsome.
Qed.

Lemma no_match_is_404_first_match_returned_witness :
  (responded (Sample.answer 200 Sample.advertisement)
     (resolve (resolve_args (Sample.request (Sample.with_ref (lit "nope")))))
     (mkRemote 200 Sample.advertisement)
   /\ Forall (fun row => ~ matches [lit "refs/heads/nope"; lit "refs/tags/nope"] row)
        [lit "003d1111 refs/tags/main"; lit "003e2222 refs/heads/main";
         lit "003e3333 refs/heads/v1.0.0"; lit "003d4444 refs/tags/v1.0.0";
         lit "0000"]
   /\ outcome (Sample.answer 200 Sample.advertisement)
        (handleRequest (Sample.request (Sample.with_ref (lit "nope"))))
      = inr (mkResponse 404 (lit "text/plain") (Text (lit "ref not found"))))
  /\ (responded (Sample.answer 200 Sample.advertisement)
        (resolve (resolve_args (Sample.request (Sample.with_ref (lit "v1.0.0")))))
        (mkRemote 200 Sample.advertisement)
      /\ Forall (fun row => ~ matches [lit "refs/heads/v1.0.0"; lit "refs/tags/v1.0.0"] row)
           [lit "003d1111 refs/tags/main"; lit "003e2222 refs/heads/main"]
      /\ split SP (lit "003e3333 refs/heads/v1.0.0")
         = [lit "003e3333"; lit "refs/heads/v1.0.0"]
      /\ outcome (Sample.answer 200 Sample.advertisement)
           (handleRequest (Sample.request (Sample.with_ref (lit "v1.0.0"))))
         = inr (mkResponse 200 (lit "application/json")
                  (Json (mkResult (Some (lit "3333")) (Some (lit "refs/heads/v1.0.0")))))).
Proof.
  assert (Hlines : split LF Sample.advertisement
    = Sample.service_line :: Sample.head_line
      :: [lit "003d1111 refs/tags/main"; lit "003e2222 refs/heads/main";
          lit "003e3333 refs/heads/v1.0.0"; lit "003d4444 refs/tags/v1.0.0";
          lit "0000"]).
  { vm_compute. reflexivity. }
  split.
  - assert (Hr : responded (Sample.answer 200 Sample.advertisement)
      (resolve (resolve_args (Sample.request (Sample.with_ref (lit "nope")))))
      (mkRemote 200 Sample.advertisement)).
    { eexists. eexists. left. reflexivity. }
    assert (Hn : Forall
      (fun row => ~ matches [lit "refs/heads/nope"; lit "refs/tags/nope"] row)
      [lit "003d1111 refs/tags/main"; lit "003e2222 refs/heads/main";
       lit "003e3333 refs/heads/v1.0.0"; lit "003d4444 refs/tags/v1.0.0";
       lit "0000"]).
    { repeat constructor; intros H; apply is_candidate_matches in H;
        vm_compute in H; discriminate H. }
    split; [exact Hr|]. split; [exact Hn|].
    apply (proj2 (proj1 (no_match_is_404_first_match_returned
                           (Sample.answer 200 Sample.advertisement)
                           (resolve_args (Sample.request (Sample.with_ref (lit "nope"))))
                           (mkRemote 200 Sample.advertisement)
                           [lit "refs/heads/nope"; lit "refs/tags/nope"]
                           _ _ _ Hr eq_refl Hlines eq_refl)
                    ltac:(discriminate) Hn)
             _ eq_refl).
  - assert (Hr : responded (Sample.answer 200 Sample.advertisement)
      (resolve (resolve_args (Sample.request (Sample.with_ref (lit "v1.0.0")))))
      (mkRemote 200 Sample.advertisement)).
    { eexists. eexists. left. reflexivity. }
    assert (Hn : Forall
      (fun row => ~ matches [lit "refs/heads/v1.0.0"; lit "refs/tags/v1.0.0"] row)
      [lit "003d1111 refs/tags/main"; lit "003e2222 refs/heads/main"]).
    { repeat constructor; intros H; apply is_candidate_matches in H;
        vm_compute in H; discriminate H. }
    assert (Hs : split SP (lit "003e3333 refs/heads/v1.0.0")
                 = [lit "003e3333"; lit "refs/heads/v1.0.0"]) by reflexivity.
    split; [exact Hr|]. split; [exact Hn|]. split; [exact Hs|].
    apply (proj2 (proj2 (no_match_is_404_first_match_returned
                           (Sample.answer 200 Sample.advertisement)
                           (resolve_args (Sample.request (Sample.with_ref (lit "v1.0.0"))))
                           (mkRemote 200 Sample.advertisement)
                           [lit "refs/heads/v1.0.0"; lit "refs/tags/v1.0.0"]
                           _ _ _ Hr eq_refl Hlines eq_refl)
                    [lit "003d1111 refs/tags/main"; lit "003e2222 refs/heads/main"]
                    (lit "003e3333 refs/heads/v1.0.0")
                    [lit "003d4444 refs/tags/v1.0.0"; lit "0000"]
                    (lit "003e3333") (lit "refs/heads/v1.0.0")
                    eq_refl Hn Hs (or_introl eq_refl))
             _ eq_refl).
Defined.

(** C5: for a [ref] that starts with [refs/] the search terms are that
    one name; a row is kept exactly when it is a line for that name, so
    a line for any other name is not; and what [resolve] returns is
    built from a row that is a line for that name. *)
Theorem full_ref_matches_exactly (r : jsstring) :
  startsWith (lit "refs/") r = true ->
  (forall lines : list jsstring, searchTerms (Some r) lines = inr [r])
  /\ (forall row : jsstring, is_candidate [r] row = true <-> line_for r row)
  /\ (forall name row : jsstring,
        line_for name row -> name <> r -> is_candidate [r] row = false)
  /\ (forall (remote : Remote) (a : ResolveArgs) (resp : RemoteResponse)
             (res : ResolutionResult),
        ref a = Some r ->
        responded remote (resolve a) resp ->
        outcome remote (resolve a) = inr (Some res) ->
        exists row : jsstring,
          In row (slice 2 (split LF (remote_text resp)))
          /\ line_for r row
          /\ res = result_of_parts (skip_pkt_len row)).
Proof.
  intros Hstart.
  assert (Hterms : forall lines, searchTerms (Some r) lines = inr [r]).
  { intros lines. apply startsWith_prefix in Hstart as [rest ->].
    reflexivity. }
  assert (Hiff : forall row, is_candidate [r] row = true <-> line_for r row).
  { intros row. rewrite is_candidate_matches. unfold matches. split.
    - intros (name & [<-|[]] & H). exact H.
    - intros H. exists r. split; [now left | exact H]. }
  split; [exact Hterms|]. split; [exact Hiff|]. split.
  - intros name row [tok Hs] Hne.
    destruct (is_candidate [r] row) eqn:E; [|reflexivity].
    apply Hiff in E as [tok' Hs']. congruence.
  - intros remote a resp res Href Hresp Hout.
    apply resolve_responded in Hresp as (_ & _ & Heq). rewrite Heq in Hout.
    unfold after_fetch in Hout. destruct (ok resp); cbn [negb] in Hout.
    + unfold parse in Hout.
      destruct (List.length (split LF (remote_text resp)) <? 3);
        [discriminate Hout|].
      rewrite Href, Hterms in Hout. injection Hout as Hout.
      apply first_match_Some in Hout
        as (pre & row & post & Hrows & _ & Hrow & ->).
      exists row. split; [|split; [now apply Hiff | reflexivity]].
      change (slice 2 (split LF (remote_text resp)) = pre ++ row :: post) in Hrows.
      rewrite Hrows. apply in_or_app. right. now left.
    + destruct ((remote_status resp =? 401)%Z && negb (truthy (token a))
                || (remote_status resp =? 404)%Z); discriminate Hout.
Qed.

Lemma full_ref_matches_exactly_witness :
  startsWith (lit "refs/") (lit "refs/tags/v1.0.0") = true
  /\ line_for (lit "refs/heads/v1.0.0") (lit "003e3333 refs/heads/v1.0.0")
  /\ is_candidate [lit "refs/tags/v1.0.0"] (lit "003e3333 refs/heads/v1.0.0") = false.
Proof.
  assert (Hl : line_for (lit "refs/heads/v1.0.0") (lit "003e3333 refs/heads/v1.0.0")).
  { exists (lit "003e3333"). reflexivity. }
  split; [reflexivity|]. split; [exact Hl|].
  apply (proj1 (proj2 (proj2 (full_ref_matches_exactly (lit "refs/tags/v1.0.0")
                                eq_refl)))
           (lit "refs/heads/v1.0.0") _ Hl).
  discriminate.
Defined.

(** C2: for a short [ref] and an advertisement with a pkt-line for
    [refs/heads/<ref>] and a pkt-line for [refs/tags/<ref>], no earlier
    row being a line for either name, [resolve] returns the hash and the
    name of the one of the two that comes first: the branch when the
    branch comes first, the tag when the tag comes first. *)
Theorem short_ref_first_line_wins (remote : Remote) (a : ResolveArgs)
    (resp : RemoteResponse) (r h1 h2 : jsstring) (pre mid post : list jsstring)
    (branch_row tag_row len1 sha1 len2 sha2 : jsstring) :
  ref a = Some r -> r <> [] -> startsWith (lit "refs/") r = false ->
  responded remote (resolve a) resp ->
  ok resp = true ->
  pkt_line len1 sha1 (lit "refs/heads/" ++ r) branch_row ->
  pkt_line len2 sha2 (lit "refs/tags/" ++ r) tag_row ->
  Forall (fun row => ~ line_for (lit "refs/heads/" ++ r) row
                     /\ ~ line_for (lit "refs/tags/" ++ r) row) pre ->
  (split LF (remote_text resp)
   = h1 :: h2 :: pre ++ branch_row :: mid ++ tag_row :: post ->
   outcome remote (resolve a)
   = inr (Some (mkResult (Some sha1) (Some (lit "refs/heads/" ++ r)))))
  /\ (split LF (remote_text resp)
      = h1 :: h2 :: pre ++ tag_row :: mid ++ branch_row :: post ->
      outcome remote (resolve a)
      = inr (Some (mkResult (Some sha2) (Some (lit "refs/tags/" ++ r))))).
Proof.
  intros Href Hne Hshort Hresp Hok Hbranch Htag Hpre.
  set (terms := [lit "refs/heads/" ++ r; lit "refs/tags/" ++ r]).
  assert (Hterms : forall lines, searchTerms (ref a) lines = inr terms).
  { intros lines. rewrite Href. destruct r as [|c r]; [contradiction|].
    unfold searchTerms, searchTerms_of_ref. cbn [truthy]. now rewrite Hshort. }
  assert (Hpre' : Forall (fun row => ~ matches terms row) pre).
  { revert Hpre. apply Forall_impl. intros row [Hb Ht] (name & Hin & Hl).
    destruct Hin as [<-|[<-|[]]]; contradiction. }
  assert (Hfirst : forall row len sha name rest,
    pkt_line len sha name row -> In name terms ->
    split LF (remote_text resp) = h1 :: h2 :: pre ++ row :: rest ->
    outcome remote (resolve a) = inr (Some (mkResult (Some sha) (Some name)))).
  { intros row len sha name rest Hrow Hin Hlines.
    rewrite (resolve_returns_first remote a resp terms pre row rest Hresp Hok).
    - now rewrite (pkt_line_result len sha name row Hrow).
    - rewrite Hlines. cbn [List.length]. rewrite length_app. cbn [List.length]. lia.
    - apply Hterms.
    - now rewrite Hlines.
    - exact Hpre'.
    - exists name. split; [exact Hin|]. exists (len ++ sha). apply Hrow. }
  split; intros Hlines.
  - apply (Hfirst branch_row len1 sha1 _ (mid ++ tag_row :: post) Hbranch);
      [now left | exact Hlines].
  - apply (Hfirst tag_row len2 sha2 _ (mid ++ branch_row :: post) Htag);
      [right; now left | exact Hlines].
Qed.

Lemma short_ref_first_line_wins_witness :
  responded (Sample.answer 200 Sample.advertisement)
    (resolve (Sample.args (Some (lit "main")))) (mkRemote 200 Sample.advertisement)
  /\ pkt_line (lit "003e") (lit "2222") (lit "refs/heads/" ++ lit "main")
       (lit "003e2222 refs/heads/main")
  /\ pkt_line (lit "003d") (lit "1111") (lit "refs/tags/" ++ lit "main")
       (lit "003d1111 refs/tags/main")
  /\ split LF Sample.advertisement
     = Sample.service_line :: Sample.head_line
       :: [] ++ lit "003d1111 refs/tags/main"
       :: [] ++ lit "003e2222 refs/heads/main"
       :: [lit "003e3333 refs/heads/v1.0.0"; lit "003d4444 refs/tags/v1.0.0";
           lit "0000"]
  /\ outcome (Sample.answer 200 Sample.advertisement)
       (resolve (Sample.args (Some (lit "main"))))
     = inr (Some (mkResult (Some (lit "1111")) (Some (lit "refs/tags/" ++ lit "main")))).
Proof.
  assert (Hr : responded (Sample.answer 200 Sample.advertisement)
    (resolve (Sample.args (Some (lit "main")))) (mkRemote 200 Sample.advertisement)).
  { eexists. eexists. left. reflexivity. }
  assert (Hb : pkt_line (lit "003e") (lit "2222") (lit "refs/heads/" ++ lit "main")
                 (lit "003e2222 refs/heads/main")).
  { split; reflexivity. }
  assert (Ht : pkt_line (lit "003d") (lit "1111") (lit "refs/tags/" ++ lit "main")
                 (lit "003d1111 refs/tags/main")).
  { split; reflexivity. }
  assert (Hl : split LF Sample.advertisement
     = Sample.service_line :: Sample.head_line
       :: [] ++ lit "003d1111 refs/tags/main"
       :: [] ++ lit "003e2222 refs/heads/main"
       :: [lit "003e3333 refs/heads/v1.0.0"; lit "003d4444 refs/tags/v1.0.0";
           lit "0000"]).
  { vm_compute. reflexivity. }
  split; [exact Hr|]. split; [exact Hb|]. split; [exact Ht|]. split; [exact Hl|].
  apply (proj2 (short_ref_first_line_wins
                  (Sample.answer 200 Sample.advertisement)
                  (Sample.args (Some (lit "main"))) (mkRemote 200 Sample.advertisement)
                  (lit "main") Sample.service_line Sample.head_line [] [] _ _ _ _ _ _ _
                  eq_refl ltac:(discriminate) eq_refl Hr eq_refl Hb Ht
                  (Forall_nil _)) Hl).
Defined.

(** C10: when [ref] is absent or empty and the second line of the
    advertisement has no [symref=HEAD:] followed by a code unit that is
    not white space, [resolve] throws a [TypeError], and the response of
    [handleRequest] is 400 with the message of that error. *)
Theorem missing_symref_is_400 (remote : Remote) (a : ResolveArgs)
    (resp : RemoteResponse) :
  ref a = None \/ ref a = Some [] ->
  responded remote (resolve a) resp ->
  ok resp = true ->
  3 <= List.length (split LF (remote_text resp)) ->
  ~ has_symref (nth 1 (split LF (remote_text resp)) []) ->
  exists err : JsError,
    is_TypeError err = true
    /\ outcome remote (resolve a) = inl err
    /\ forall request : Request,
         resolve_args request = a ->
         outcome remote (handleRequest request)
         = inr (mkResponse 400 (lit "text/plain") (Text (message err))).
Proof.
  intros Href Hresp Hok Hlen Hsym.
  exists (mkError TypeError null_index_message None).
  assert (Hout : outcome remote (resolve a)
                 = inl (mkError TypeError null_index_message None)).
  { apply resolve_responded in Hresp as (_ & _ & ->).
    unfold after_fetch. rewrite Hok. cbn [negb]. unfold parse.
    destruct (Nat.ltb_spec (List.length (split LF (remote_text resp))) 3); [lia|].
    apply falsy_cases in Href. unfold searchTerms, default_branch.
    rewrite Href. apply match_literal_group_None in Hsym. now rewrite Hsym. }
  split; [reflexivity|]. split; [exact Hout|].
  intros request <-. now rewrite handleRequest_outcome, Hout.
Qed.

Lemma missing_symref_is_400_witness :
  ref (resolve_args (Sample.request [])) = None
  /\ responded (Sample.answer 200 Sample.empty_repository)
       (resolve (resolve_args (Sample.request [])))
       (mkRemote 200 Sample.empty_repository)
  /\ ~ has_symref (nth 1 (split LF Sample.empty_repository) [])
  /\ exists response : Response,
       outcome (Sample.answer 200 Sample.empty_repository)
         (handleRequest (Sample.request [])) = inr response
       /\ res_status response = 400%Z.
Proof.
  assert (Hr : responded (Sample.answer 200 Sample.empty_repository)
    (resolve (resolve_args (Sample.request [])))
    (mkRemote 200 Sample.empty_repository)).
  { eexists. eexists. left. reflexivity. }
  assert (Hs : ~ has_symref (nth 1 (split LF Sample.empty_repository) [])).
  { apply match_literal_group_None. vm_compute. reflexivity. }
  assert (Hl : 3 <= List.length (split LF Sample.empty_repository)).
  { vm_compute. lia. }
  split; [reflexivity|]. split; [exact Hr|]. split; [exact Hs|].
  destruct (missing_symref_is_400 (Sample.answer 200 Sample.empty_repository)
              (resolve_args (Sample.request [])) _
              (or_introl eq_refl) Hr eq_refl Hl Hs)
    as (err & _ & _ & Hreq).
  eexists. split; [apply (Hreq _ eq_refl) | reflexivity].
Defined.


(** * Further properties of [resolve] and [handleRequest] *)

(** ** The call of [fetch] *)

(** A run of [resolve] either stops before [fetch], or makes the one
    call and settles as the code after it does. *)
Lemma resolve_run_cases (remote : Remote) (a : ResolveArgs) :
  (exists e, resolve a = Rejected e)
  \/ (exists opts,
        truthy (owner a) = true /\ truthy (repo a) = true
        /\ fetch_opts (token a) = inr opts
        /\ run remote (resolve a)
           = ([mkCall (info_refs_url a) opts (remote (info_refs_url a) opts)],
              outcome remote (after_fetch a (remote (info_refs_url a) opts)))).
Proof.
  unfold resolve.
  destruct (truthy (owner a)); [|left; eexists; reflexivity].
  destruct (truthy (repo a)); [|left; eexists; reflexivity].
  cbn [negb orb].
  destruct (fetch_opts (token a)) as [e|opts]; [left; eexists; reflexivity|].
  right. exists opts. repeat split. cbn [run].
  pose proof (after_fetch_settled remote a (remote (info_refs_url a) opts)) as Hs.
  unfold calls in Hs. unfold outcome.
  destruct (run remote (after_fetch a (remote (info_refs_url a) opts))) as [cs out].
  cbn [fst snd] in *. now subst cs.
Qed.

(** X1: with [owner] and [repo] supplied, [resolve] makes exactly one
    call of [fetch], to the [info/refs] address of the repository;
    without a token the call carries no header, with a token of code
    units below 256 it carries [Authorization: Basic] followed by the
    base64 of [any_user:<token>]. *)
Theorem resolve_single_call (remote : Remote) (a : ResolveArgs) (o r : jsstring) :
  owner a = Some o -> o <> [] -> repo a = Some r -> r <> [] ->
  let url := lit "https://github.com/" ++ o ++ lit "/" ++ r
               ++ lit ".git/info/refs?service=git-upload-pack" in
  (truthy (token a) = false ->
   calls remote (resolve a) = [mkCall url (mkOpts []) (remote url (mkOpts []))])
  /\ (forall t : jsstring,
        token a = Some t -> t <> [] -> Forall (fun c => (c < 256)%N) t ->
        let opts := mkOpts [(lit "Authorization",
                             lit "Basic " ++ base64 (lit "any_user:" ++ t))] in
        calls remote (resolve a) = [mkCall url opts (remote url opts)]).
Proof.
  intros Ho Hone Hr Hrne url.
  assert (Hurl : info_refs_url a = url).
  { unfold info_refs_url, url. now rewrite Ho, Hr. }
  assert (Hcalls : forall opts, fetch_opts (token a) = inr opts ->
            calls remote (resolve a) = [mkCall url opts (remote url opts)]).
  { intros opts Hopts. unfold calls.
    destruct (resolve_run_cases remote a) as [[e He]|(opts' & _ & _ & Ho' & Hrun)].
    - exfalso. unfold resolve in He. rewrite Ho, Hr, Hopts in He.
      destruct o; [contradiction|]. destruct r; [contradiction|]. discriminate He.
    - rewrite Hrun. cbn [fst]. rewrite Hurl. congruence. }
  split.
  - intros Ht. apply Hcalls. unfold fetch_opts. now rewrite Ht.
  - intros t Ht Htne Hlatin opts. apply Hcalls. unfold fetch_opts, btoa.
    rewrite Ht. destruct t as [|c t]; [contradiction|]. cbn [truthy template].
    replace (forallb (fun c0 : N => (c0 <? 256)%N) (lit "any_user:" ++ c :: t))
      with true; [reflexivity|].
    symmetry. rewrite forallb_app. apply andb_true_iff. split; [reflexivity|].
    apply forallb_forall. rewrite Forall_forall in Hlatin.
    intros x Hx. apply N.ltb_lt. now apply Hlatin.
Qed.

Lemma resolve_single_call_witness :
  owner (resolve_args Sample.two_tokens) = Some (lit "adobe")
  /\ repo (resolve_args Sample.two_tokens) = Some (lit "helix-fetch")
  /\ token (resolve_args Sample.two_tokens) = Some (lit "from-parameter")
  /\ Forall (fun c => (c < 256)%N) (lit "from-parameter")
  /\ calls (Sample.answer 200 Sample.advertisement)
       (resolve (resolve_args Sample.two_tokens))
     = [mkCall
          (lit "https://github.com/" ++ lit "adobe" ++ lit "/" ++ lit "helix-fetch"
             ++ lit ".git/info/refs?service=git-upload-pack")
          (mkOpts [(lit "Authorization",
                    lit "Basic " ++ base64 (lit "any_user:" ++ lit "from-parameter"))])
          (Fulfilled (mkRemote 200 Sample.advertisement))].
Proof.
  assert (Hl : Forall (fun c => (c < 256)%N) (lit "from-parameter")).
  { apply Forall_forall. intros x Hx.
    apply N.ltb_lt. revert x Hx. apply forallb_forall. vm_compute. reflexivity. }
  split; [reflexivity|]. split; [reflexivity|]. split; [reflexivity|].
  split; [exact Hl|].
  apply (proj2 (resolve_single_call (Sample.answer 200 Sample.advertisement)
                  (resolve_args Sample.two_tokens) (lit "adobe") (lit "helix-fetch")
                  eq_refl ltac:(discriminate) eq_refl ltac:(discriminate))
           (lit "from-parameter") eq_refl ltac:(discriminate) Hl).
Defined.

(** ** The responses of [handleRequest] *)

(** A response the constructor made is the record of its arguments. *)
Lemma new_Response_inr (body : Body) (s : Z) (contentType : jsstring)
    (response : Response) :
  new_Response body s contentType = inr response ->
  response = mkResponse s contentType body
  /\ (200 <= s <= 599)%Z /\ null_body_status s = false.
Proof.
  unfold new_Response.
  destruct (Z.ltb_spec s 200); [discriminate|].
  destruct (Z.ltb_spec 599 s); [discriminate|]. cbn [orb].
  destruct (null_body_status s); [discriminate|].
  intros E. injection E as <-. repeat split; lia.
Qed.

(** The handler of [catch] calls the constructor with a text, the
    content type [text/plain] and one of three kinds of status. *)
Lemma on_error_cases (err : JsError) :
  exists (t : jsstring) (s : Z),
    on_error err = new_Response (Text t) s (lit "text/plain")
    /\ ((is_TypeError err = true /\ s = 400%Z)
        \/ (is_TypeError err = false /\ status_truthy (status err) = false
            /\ s = 500%Z)
        \/ (is_TypeError err = false
            /\ exists s0, status err = Some s0 /\ s0 <> 0%Z
                 /\ s = if ((500 <=? s0) && (s0 <=? 599))%Z then 502%Z else s0)).
Proof.
  unfold on_error. destruct (is_TypeError err).
  - eexists. eexists. split; [reflexivity|]. left. now split.
  - destruct (status err) as [s0|] eqn:Hs.
    + cbn [status_truthy]. destruct (Z.eqb_spec s0 0) as [E|E]; cbn [negb].
      * eexists. eexists. split; [reflexivity|]. right. left. now repeat split.
      * eexists. eexists. split; [reflexivity|]. right. right.
        split; [reflexivity|]. exists s0. now repeat split.
    + eexists. eexists. split; [reflexivity|]. right. left. now repeat split.
Qed.

(** X2: [handleRequest] makes at most one call of [fetch].  When
    [resolve] returns a result the response is 200 with its JSON, when
    it returns [null] the response is 404 [ref not found].  When
    [resolve] fails, the promise of [handleRequest] rejects exactly when
    the error is no [TypeError] and carries a status outside 500-599
    that [new Response] refuses (below 200, above 599, or 204, 205,
    304); otherwise it gives a response that is a plain text. *)
Theorem handleRequest_responds_or_status_refused (remote : Remote)
    (request : Request) :
  List.length (calls remote (handleRequest request)) <= 1
  /\ (forall result : ResolutionResult,
        outcome remote (resolve (resolve_args request)) = inr (Some result) ->
        outcome remote (handleRequest request)
        = inr (mkResponse 200 (lit "application/json") (Json result)))
  /\ (outcome remote (resolve (resolve_args request)) = inr None ->
      outcome remote (handleRequest request)
      = inr (mkResponse 404 (lit "text/plain") (Text (lit "ref not found"))))
  /\ (forall err : JsError,
        outcome remote (resolve (resolve_args request)) = inl err ->
        let refused :=
          is_TypeError err = false
          /\ exists s, status err = Some s /\ s <> 0%Z
               /\ ~ (500 <= s <= 599)%Z
               /\ ((s < 200)%Z \/ (599 < s)%Z \/ null_body_status s = true) in
        (refused -> exists e, outcome remote (handleRequest request) = inl e)
        /\ (~ refused ->
            exists response : Response,
              outcome remote (handleRequest request) = inr response
              /\ content_type response = lit "text/plain"
              /\ exists t, res_body response = Text t)).
Proof.
  split; [|split; [|split]].
  - unfold calls at 1. rewrite handleRequest_run. cbn [fst]. unfold calls.
    destruct (resolve_run_cases remote (resolve_args request))
      as [[e He]|(opts & _ & _ & _ & Hrun)].
    + rewrite He. cbn. lia.
    + rewrite Hrun. cbn. lia.
  - intros result H. now rewrite handleRequest_outcome, H.
  - intros H. now rewrite handleRequest_outcome, H.
  - intros err H refused. rewrite handleRequest_outcome, H.
    destruct (on_error_cases err) as (t & s & -> & Hcases). split.
    + intros (Ht & s0 & Hs0 & Hz & H5 & Hbad).
      apply new_Response_refuses.
      destruct Hcases as [[Ht' _]|[(_ & Hf & _)|(_ & s1 & Hs1 & _ & ->)]].
      * congruence.
      * rewrite Hs0 in Hf. cbn in Hf. destruct (Z.eqb_spec s0 0); [lia|discriminate].
      * assert (s1 = s0) by congruence. subst s1.
        destruct (Z.leb_spec 500 s0), (Z.leb_spec s0 599); cbn [andb];
          try exact Hbad; lia.
    + intros Hnot.
      assert (Hok : (200 <= s <= 599)%Z /\ null_body_status s = false).
      { destruct Hcases as [[_ ->]|[(_ & _ & ->)|(Ht & s0 & Hs0 & Hz & ->)]].
        - split; [lia | reflexivity].
        - split; [lia | reflexivity].
        - destruct ((500 <=? s0)%Z && (s0 <=? 599)%Z) eqn:E;
            [split; [lia | reflexivity]|].
          assert (H5 : ~ (500 <= s0 <= 599)%Z).
          { intros [Hlo Hhi]. apply Z.leb_le in Hlo, Hhi.
            rewrite Hlo, Hhi in E. discriminate E. }
          assert (Hrefuse : (s0 < 200)%Z \/ (599 < s0)%Z
                            \/ null_body_status s0 = true -> False).
          { intros Hbad. apply Hnot. split; [exact Ht|]. exists s0.
            split; [exact Hs0|]. split; [exact Hz|]. split; [exact H5 | exact Hbad]. }
          destruct (Z.ltb_spec s0 200); [exfalso; apply Hrefuse; now left|].
          destruct (Z.ltb_spec 599 s0);
            [exfalso; apply Hrefuse; right; now left|].
          destruct (null_body_status s0);
            [exfalso; apply Hrefuse; right; now right|].
          split; [lia | reflexivity]. }
      destruct Hok as [Hr Hn]. rewrite (new_Response_accepts _ _ _ Hr Hn).
      eexists. split; [reflexivity|]. split; [reflexivity|]. eexists. reflexivity.
Qed.

Lemma handleRequest_responds_or_status_refused_witness :
  outcome (Sample.answer 200 Sample.advertisement)
    (resolve (resolve_args (Sample.request (Sample.with_ref (lit "v1.0.0")))))
  = inr (Some (mkResult (Some (lit "3333")) (Some (lit "refs/heads/v1.0.0"))))
  /\ outcome (Sample.answer 200 Sample.advertisement)
       (handleRequest (Sample.request (Sample.with_ref (lit "v1.0.0"))))
     = inr (mkResponse 200 (lit "application/json")
              (Json (mkResult (Some (lit "3333")) (Some (lit "refs/heads/v1.0.0")))))
  /\ outcome (Sample.answer 304 []) (resolve (resolve_args (Sample.request [])))
     = inl (mkError Error (lit "failed to fetch git repo info (status: 304, body: )")
              (Some 304%Z))
  /\ exists e, outcome (Sample.answer 304 []) (handleRequest (Sample.request [])) = inl e.
Proof.
  assert (H1 : outcome (Sample.answer 200 Sample.advertisement)
    (resolve (resolve_args (Sample.request (Sample.with_ref (lit "v1.0.0")))))
    = inr (Some (mkResult (Some (lit "3333")) (Some (lit "refs/heads/v1.0.0"))))).
  { vm_compute. reflexivity. }
  assert (H2 : outcome (Sample.answer 304 [])
                 (resolve (resolve_args (Sample.request [])))
    = inl (mkError Error (lit "failed to fetch git repo info (status: 304, body: )")
             (Some 304%Z))).
  { vm_compute. reflexivity. }
  split; [exact H1|]. split; [|split; [exact H2|]].
  - apply (proj1 (proj2 (handleRequest_responds_or_status_refused
                           (Sample.answer 200 Sample.advertisement)
                           (Sample.request (Sample.with_ref (lit "v1.0.0")))))
             _ H1).
  - apply (proj1 (proj2 (proj2 (proj2 (handleRequest_responds_or_status_refused
                           (Sample.answer 304 []) (Sample.request []))))
                    _ H2)).
    split; [reflexivity|]. exists 304%Z.
    split; [reflexivity|]. split; [discriminate|]. split; [lia|].
    right. right. reflexivity.
Defined.

(** X3: a response of [handleRequest] with a status in the range
    500-599 has status 500 or 502; no other server error status of the
    remote side is passed on. *)
Theorem server_error_is_500_or_502 (remote : Remote) (request : Request)
    (response : Response) :
  outcome remote (handleRequest request) = inr response ->
  (500 <= res_status response <= 599)%Z ->
  res_status response = 500%Z \/ res_status response = 502%Z.
Proof.
  rewrite handleRequest_outcome. intros H Hr.
  destruct (outcome remote (resolve (resolve_args request))) as [e|result].
  - destruct (on_error_cases e) as (t & s & Hon & Hcases). rewrite Hon in H.
    apply new_Response_inr in H as (-> & _ & _). cbn [res_status] in *.
    destruct Hcases as [[_ ->]|[(_ & _ & ->)|(_ & s0 & _ & _ & ->)]];
      [lia | now left |].
    destruct (Z.leb_spec 500 s0), (Z.leb_spec s0 599); cbn [andb] in *;
      [now right | lia | lia | lia].
  - rewrite on_result_accepted in H. injection H as <-.
    destruct result; cbn [res_status] in Hr; lia.
Qed.

Lemma server_error_is_500_or_502_witness :
  outcome (Sample.answer 503 (lit "Service Unavailable"))
    (handleRequest (Sample.request []))
  = inr (mkResponse 502 (lit "text/plain")
           (Text (lit "failed to fetch git repo info (status: 503, message: failed to fetch git repo info (status: 503, body: Service Unavailable))")))
  /\ (500 <= 502 <= 599)%Z
  /\ (502 = 500 \/ 502 = 502)%Z.
Proof.
  assert (Ho : outcome (Sample.answer 503 (lit "Service Unavailable"))
                 (handleRequest (Sample.request []))
               = inr (mkResponse 502 (lit "text/plain")
                        (Text (lit "failed to fetch git repo info (status: 503, message: failed to fetch git repo info (status: 503, body: Service Unavailable))")))).
  { vm_compute. reflexivity. }
  assert (Hr : (500 <= 502 <= 599)%Z) by lia.
  split; [exact Ho|]. split; [exact Hr|].
  apply (server_error_is_500_or_502 _ _ _ Ho Hr).
Defined.

(** X4: when the call of [fetch] itself fails with [e], [resolve] fails
    with [e]; [handleRequest] answers 400 with the message of [e] when
    [e] is a [TypeError] (what [fetch] throws on a network failure),
    and 500 when it is not and has no status. *)
Theorem fetch_rejection_surfaces (remote : Remote) (a : ResolveArgs)
    (u : jsstring) (o : FetchOpts) (e : JsError) :
  In (mkCall u o (FetchRejected e)) (calls remote (resolve a)) ->
  outcome remote (resolve a) = inl e
  /\ forall request : Request,
       resolve_args request = a ->
       (is_TypeError e = true ->
        outcome remote (handleRequest request)
        = inr (mkResponse 400 (lit "text/plain") (Text (message e))))
       /\ (is_TypeError e = false -> status e = None ->
           outcome remote (handleRequest request)
           = inr (mkResponse 500 (lit "text/plain")
                    (Text (lit "failed to fetch git repo info: "
                             ++ error_toString e ++ lit ")")))).
Proof.
  intros Hin.
  assert (Hout : outcome remote (resolve a) = inl e).
  { unfold calls, outcome in *.
    destruct (resolve_run_cases remote a) as [[e' He]|(opts & _ & _ & _ & Hrun)].
    - rewrite He in Hin. destruct Hin.
    - rewrite Hrun in *. cbn [fst snd] in *. destruct Hin as [Hc|[]].
      injection Hc as _ _ Hf. rewrite Hf. reflexivity. }
  split; [exact Hout|].
  intros request <-. rewrite handleRequest_outcome, Hout. unfold on_error.
  split.
  - intros ->. reflexivity.
  - intros -> ->. reflexivity.
Qed.

Lemma fetch_rejection_surfaces_witness :
  In (mkCall (lit "https://github.com/adobe/helix-fetch.git/info/refs?service=git-upload-pack")
        (mkOpts []) (FetchRejected Sample.network_error))
     (calls (Sample.unreachable Sample.network_error)
        (resolve (resolve_args (Sample.request []))))
  /\ outcome (Sample.unreachable Sample.network_error)
       (handleRequest (Sample.request []))
     = inr (mkResponse 400 (lit "text/plain") (Text (lit "Network connection lost."))).
Proof.
  assert (Hin : In (mkCall (lit "https://github.com/adobe/helix-fetch.git/info/refs?service=git-upload-pack")
        (mkOpts []) (FetchRejected Sample.network_error))
     (calls (Sample.unreachable Sample.network_error)
        (resolve (resolve_args (Sample.request []))))).
  { left. reflexivity. }
  split; [exact Hin|].
  apply (proj1 (proj2 (fetch_rejection_surfaces _ _ _ _ _ Hin)
                  (Sample.request []) eq_refl)).
  reflexivity.
Defined.

(** X5: a token with a code unit above 255 cannot be encoded: [resolve]
    fails before any call of [fetch], and [handleRequest] answers 500
    without having called the remote side. *)
Theorem unencodable_token_is_500 (a : ResolveArgs) (t : jsstring) :
  truthy (owner a) = true -> truthy (repo a) = true ->
  token a = Some t -> Exists (fun c => (256 <= c)%N) t ->
  resolve a
  = Rejected (mkError (OtherError (lit "InvalidCharacterError")) btoa_message None)
  /\ forall (remote : Remote) (request : Request),
       resolve_args request = a ->
       exists response : Response,
         run remote (handleRequest request) = ([], inr response)
         /\ res_status response = 500%Z.
Proof.
  intros Ho Hr Ht Hex.
  assert (Hres : resolve a
    = Rejected (mkError (OtherError (lit "InvalidCharacterError")) btoa_message None)).
  { unfold resolve, fetch_opts, btoa. rewrite Ho, Hr, Ht. cbn [negb orb].
    destruct t as [|c t]; [inversion Hex|]. cbn [truthy template].
    replace (forallb (fun c0 : N => (c0 <? 256)%N) (lit "any_user:" ++ c :: t))
      with false; [reflexivity|].
    symmetry. rewrite forallb_app. apply andb_false_iff. right.
    apply not_true_is_false. intros Hall. rewrite forallb_forall in Hall.
    apply Exists_exists in Hex as (x & Hx & Hge).
    specialize (Hall x Hx). apply N.ltb_lt in Hall. lia. }
  split; [exact Hres|].
  intros remote request <-. eexists. split.
  - rewrite handleRequest_run. unfold calls, outcome. rewrite Hres. reflexivity.
  - reflexivity.
Qed.

Lemma unencodable_token_is_500_witness :
  truthy (owner (resolve_args Sample.euro_token)) = true
  /\ truthy (repo (resolve_args Sample.euro_token)) = true
  /\ token (resolve_args Sample.euro_token) = Some [8364%N]
  /\ Exists (fun c => (256 <= c)%N) [8364%N]
  /\ exists response : Response,
       run (Sample.answer 200 Sample.advertisement) (handleRequest Sample.euro_token)
       = ([], inr response)
       /\ res_status response = 500%Z.
Proof.
  assert (He : Exists (fun c => (256 <= c)%N) [8364%N]).
  { left. lia. }
  split; [reflexivity|]. split; [reflexivity|]. split; [reflexivity|].
  split; [exact He|].
  apply (proj2 (unencodable_token_is_500 (resolve_args Sample.euro_token) [8364%N]
                  eq_refl eq_refl eq_refl He)
           (Sample.answer 200 Sample.advertisement) Sample.euro_token eq_refl).
Defined.

(** ** The default branch *)






(** ** What [resolve] returns *)



(** A value of the promise of [resolve] comes from a successful answer
    of three lines or more, and is the first match of its rows. *)
Lemma resolve_value_inv (remote : Remote) (a : ResolveArgs)
    (v : option ResolutionResult) :
  outcome remote (resolve a) = inr v ->
  exists resp terms,
    responded remote (resolve a) resp
    /\ ok resp = true
    /\ 3 <= List.length (split LF (remote_text resp))
    /\ searchTerms (ref a) (split LF (remote_text resp)) = inr terms
    /\ v = first_match terms (slice 2 (split LF (remote_text resp))).
Proof.
  intros H. unfold outcome, responded, calls in *.
  destruct (resolve_run_cases remote a) as [[e He]|(opts & _ & _ & _ & Hrun)].
  - rewrite He in H. discriminate H.
  - rewrite Hrun in *. cbn [fst snd] in *.
    destruct (remote (info_refs_url a) opts) as [resp|e] eqn:Hf; [|discriminate H].
    unfold outcome, after_fetch in H.
    destruct (ok resp) eqn:Hok; cbn [negb] in H.
    + unfold parse in H.
      destruct (Nat.ltb_spec (List.length (split LF (remote_text resp))) 3);
        [discriminate H|].
      destruct (searchTerms (ref a) (split LF (remote_text resp))) as [e|terms] eqn:Ht;
        [discriminate H|].
      exists resp, terms. repeat split; try assumption.
      * exists (info_refs_url a), opts. now left.
      * cbn [run snd] in H. injection H as <-. reflexivity.
    + destruct ((remote_status resp =? 401)%Z && negb (truthy (token a))
                || (remote_status resp =? 404)%Z); discriminate H.
Qed.



(** X8: for a kept row whose first part has fewer than four code units,
    the four skipped code units take the space and the start of the
    name with them: the [sha] of the object is what is left of the
    second part and its [fqRef] is undefined; this is what [resolve]
    returns when no earlier row is kept. *)
Theorem short_first_part_result (terms : list jsstring) (row p0 p1 : jsstring) :
  split SP row = [p0; p1] -> In p1 terms -> List.length p0 < 4 ->
  result_of_parts (skip_pkt_len row)
  = mkResult (Some (skipn (3 - List.length p0) p1)) None
  /\ forall (remote : Remote) (a : ResolveArgs) (resp : RemoteResponse)
            (h1 h2 : jsstring) (pre post : list jsstring),
       responded remote (resolve a) resp ->
       ok resp = true ->
       split LF (remote_text resp) = h1 :: h2 :: pre ++ row :: post ->
       searchTerms (ref a) (split LF (remote_text resp)) = inr terms ->
       Forall (fun r => is_candidate terms r = false) pre ->
       outcome remote (resolve a)
       = inr (Some (mkResult (Some (skipn (3 - List.length p0) p1)) None)).
Proof.
  intros Hs Hi Hl.
  assert (Hres : result_of_parts (skip_pkt_len row)
                 = mkResult (Some (skipn (3 - List.length p0) p1)) None).
  { now rewrite (skip_pkt_len_short _ _ _ Hs Hl). }
  split; [exact Hres|].
  intros remote a resp h1 h2 pre post Hresp Hok Hlines Hterms Hpre.
  rewrite (resolve_parsed remote a resp terms Hresp Hok); try assumption.
  - rewrite Hlines. unfold slice. cbn [skipn].
    rewrite first_match_first; [now rewrite Hres | assumption |].
    apply is_candidate_iff. now exists p0, p1.
  - rewrite Hlines. cbn [List.length]. rewrite length_app. cbn [List.length]. lia.
Qed.

Lemma short_first_part_result_witness :
  split SP (lit "ab refs/heads/x") = [lit "ab"; lit "refs/heads/x"]
  /\ In (lit "refs/heads/x") [lit "refs/heads/x"; lit "refs/tags/x"]
  /\ List.length (lit "ab") < 4
  /\ result_of_parts (skip_pkt_len (lit "ab refs/heads/x"))
     = mkResult (Some (lit "efs/heads/x")) None.
Proof.
  assert (Hs : split SP (lit "ab refs/heads/x") = [lit "ab"; lit "refs/heads/x"])
    by reflexivity.
  assert (Hi : In (lit "refs/heads/x") [lit "refs/heads/x"; lit "refs/tags/x"]).
  { left. reflexivity. }
  assert (Hl : List.length (lit "ab") < 4).
  { vm_compute. lia. }
  split; [exact Hs|]. split; [exact Hi|]. split; [exact Hl|].
  apply (proj1 (short_first_part_result
                  [lit "refs/heads/x"; lit "refs/tags/x"]
                  (lit "ab refs/heads/x") (lit "ab") (lit "refs/heads/x") Hs Hi Hl)).
Defined.

Lemma skipn_free {A} (x : A) (n : nat) (l : list A) :
  ~ In x l -> ~ In x (skipn n l).
Proof.
  intros H Hin. apply H. rewrite <- (firstn_skipn n l).
  apply in_or_app. now right.
Qed.

(** X9: the [sha] of a returned object is always a string, without a
    space; its [fqRef] is either undefined or one of the search
    terms. *)
Theorem returned_result_shape (remote : Remote) (a : ResolveArgs)
    (res : ResolutionResult) :
  outcome remote (resolve a) = inr (Some res) ->
  exists resp terms s,
    responded remote (resolve a) resp
    /\ searchTerms (ref a) (split LF (remote_text resp)) = inr terms
    /\ sha res = Some s
    /\ ~ In SP s
    /\ (fqRef res = None \/ exists name, In name terms /\ fqRef res = Some name).
Proof.
  intros H.
  apply resolve_value_inv in H as (resp & terms & Hr & _ & _ & Ht & Hv).
  symmetry in Hv.
  apply first_match_Some in Hv as (pre & row & post & _ & _ & Hrow & ->).
  apply is_candidate_iff in Hrow as (p0 & p1 & Hs & Hi).
  pose proof (proj1 (split_two SP row p0 p1) Hs) as (_ & H0 & H1).
  destruct (Nat.le_gt_cases 4 (List.length p0)) as [Hl|Hl].
  - exists resp, terms, (skipn 4 p0).
    rewrite (skip_pkt_len_two _ _ _ Hs Hl). repeat split; try assumption.
    + now apply skipn_free.
    + right. exists p1. split; [assumption | reflexivity].
  - exists resp, terms, (skipn (3 - List.length p0) p1).
    rewrite (skip_pkt_len_short _ _ _ Hs Hl). repeat split; try assumption.
    + now apply skipn_free.
    + now left.
Qed.

Lemma returned_result_shape_witness :
  outcome (Sample.answer 200 Sample.short_token)
    (resolve (Sample.args (Some (lit "x"))))
  = inr (Some (mkResult (Some (lit "efs/heads/x")) None))
  /\ exists resp terms s,
       responded (Sample.answer 200 Sample.short_token)
         (resolve (Sample.args (Some (lit "x")))) resp
       /\ searchTerms (ref (Sample.args (Some (lit "x"))))
            (split LF (remote_text resp)) = inr terms
       /\ sha (mkResult (Some (lit "efs/heads/x")) None) = Some s
       /\ ~ In SP s
       /\ (fqRef (mkResult (Some (lit "efs/heads/x")) None) = None
           \/ exists name,
                In name terms
                /\ fqRef (mkResult (Some (lit "efs/heads/x")) None) = Some name).
Proof.
  assert (Ho : outcome (Sample.answer 200 Sample.short_token)
                 (resolve (Sample.args (Some (lit "x"))))
               = inr (Some (mkResult (Some (lit "efs/heads/x")) None))).
  { vm_compute. reflexivity. }
  split; [exact Ho|].
  apply (returned_result_shape _ _ _ Ho).
Defined.

(** X10: with a [ref] supplied, the first two lines of the body are
    never searched: two successful answers whose lines differ only in
    the first two give the same outcome. *)
Theorem header_lines_not_searched (remote1 remote2 : Remote) (a : ResolveArgs)
    (resp1 resp2 : RemoteResponse) (h1 h2 h1' h2' : jsstring) (rows : list jsstring) :
  truthy (ref a) = true ->
  responded remote1 (resolve a) resp1 ->
  responded remote2 (resolve a) resp2 ->
  ok resp1 = true -> ok resp2 = true ->
  split LF (remote_text resp1) = h1 :: h2 :: rows ->
  split LF (remote_text resp2) = h1' :: h2' :: rows ->
  rows <> [] ->
  outcome remote1 (resolve a) = outcome remote2 (resolve a).
Proof.
  intros Href Hr1 Hr2 Hok1 Hok2 Hl1 Hl2 Hrows.
  assert (Hterms : forall lines,
            searchTerms (ref a) lines = inr (searchTerms_of_ref (ref a))).
  { intros lines. unfold searchTerms. now rewrite Href. }
  assert (Hlen : 3 <= List.length (h1 :: h2 :: rows)
                 /\ 3 <= List.length (h1' :: h2' :: rows)).
  { destruct rows; [contradiction|]. cbn [List.length]. lia. }
  rewrite <- Hl1, <- Hl2 in Hlen. destruct Hlen as [Hlen1 Hlen2].
  rewrite (resolve_parsed remote1 a resp1 (searchTerms_of_ref (ref a))
             Hr1 Hok1 Hlen1 (Hterms _)).
  rewrite (resolve_parsed remote2 a resp2 (searchTerms_of_ref (ref a))
             Hr2 Hok2 Hlen2 (Hterms _)).
  now rewrite Hl1, Hl2.
Qed.

Lemma header_lines_not_searched_witness :
  responded (Sample.answer 200 Sample.advertisement)
    (resolve (Sample.args (Some (lit "main")))) (mkRemote 200 Sample.advertisement)
  /\ responded (Sample.answer 200 Sample.other_header)
       (resolve (Sample.args (Some (lit "main")))) (mkRemote 200 Sample.other_header)
  /\ split LF Sample.advertisement
     = Sample.service_line :: Sample.head_line
       :: [lit "003d1111 refs/tags/main"; lit "003e2222 refs/heads/main";
           lit "003e3333 refs/heads/v1.0.0"; lit "003d4444 refs/tags/v1.0.0";
           lit "0000"]
  /\ split LF Sample.other_header
     = lit "003e9999 refs/heads/main" :: lit "003d8888 refs/heads/main"
       :: [lit "003d1111 refs/tags/main"; lit "003e2222 refs/heads/main";
           lit "003e3333 refs/heads/v1.0.0"; lit "003d4444 refs/tags/v1.0.0";
           lit "0000"]
  /\ outcome (Sample.answer 200 Sample.advertisement)
       (resolve (Sample.args (Some (lit "main"))))
     = outcome (Sample.answer 200 Sample.other_header)
         (resolve (Sample.args (Some (lit "main")))).
Proof.
  assert (Hr1 : responded (Sample.answer 200 Sample.advertisement)
    (resolve (Sample.args (Some (lit "main")))) (mkRemote 200 Sample.advertisement)).
  { eexists. eexists. left. reflexivity. }
  assert (Hr2 : responded (Sample.answer 200 Sample.other_header)
    (resolve (Sample.args (Some (lit "main")))) (mkRemote 200 Sample.other_header)).
  { eexists. eexists. left. reflexivity. }
  assert (Hl1 : split LF Sample.advertisement
     = Sample.service_line :: Sample.head_line
       :: [lit "003d1111 refs/tags/main"; lit "003e2222 refs/heads/main";
           lit "003e3333 refs/heads/v1.0.0"; lit "003d4444 refs/tags/v1.0.0";
           lit "0000"]).
  { vm_compute. reflexivity. }
  assert (Hl2 : split LF Sample.other_header
     = lit "003e9999 refs/heads/main" :: lit "003d8888 refs/heads/main"
       :: [lit "003d1111 refs/tags/main"; lit "003e2222 refs/heads/main";
           lit "003e3333 refs/heads/v1.0.0"; lit "003d4444 refs/tags/v1.0.0";
           lit "0000"]).
  { vm_compute. reflexivity. }
  split; [exact Hr1|]. split; [exact Hr2|]. split; [exact Hl1|]. split; [exact Hl2|].
  apply (header_lines_not_searched
           (Sample.answer 200 Sample.advertisement)
           (Sample.answer 200 Sample.other_header)
           (Sample.args (Some (lit "main")))
           (mkRemote 200 Sample.advertisement) (mkRemote 200 Sample.other_header)
           _ _ _ _ _ eq_refl Hr1 Hr2 eq_refl eq_refl Hl1 Hl2).
  discriminate.
Defined.

Lemma length_split (sep : N) (s : jsstring) :
  List.length (split sep s) = S (count_occ N.eq_dec s sep).
Proof.
  induction s as [|c s IH]; simpl; [reflexivity|].
  destruct (N.eqb_spec c sep) as [->|Hc].
  - destruct (N.eq_dec sep sep); [|contradiction]. simpl. now rewrite IH.
  - destruct (N.eq_dec c sep); [contradiction|].
    destruct (split sep s); simpl in *; [discriminate IH | exact IH].
Qed.

(** X11: a row that does not hold exactly one space (a flush packet, a
    line of capabilities) is never kept, whatever the search terms: the
    result is the same as without that row. *)
Theorem row_without_one_space_skipped (terms : list jsstring) (row : jsstring) :
  count_occ N.eq_dec row SP <> 1 ->
  is_candidate terms row = false
  /\ forall pre post : list jsstring,
       first_match terms (pre ++ row :: post) = first_match terms (pre ++ post).
Proof.
  intros Hc.
  assert (Hf : is_candidate terms row = false).
  { unfold is_candidate. rewrite length_split.
    destruct (Nat.eqb_spec (S (count_occ N.eq_dec row SP)) 2); [lia | reflexivity]. }
  split; [exact Hf|].
  intros pre post. unfold first_match. rewrite !filter_app. cbn [filter].
  now rewrite Hf.
Qed.

Lemma row_without_one_space_skipped_witness :
  count_occ N.eq_dec Sample.head_line SP <> 1
  /\ is_candidate [lit "HEAD"; lit "side-band-64k"] Sample.head_line = false.
Proof.
  assert (Hc : count_occ N.eq_dec Sample.head_line SP <> 1).
  { vm_compute. discriminate. }
  split; [exact Hc|].
  apply (proj1 (row_without_one_space_skipped [lit "HEAD"; lit "side-band-64k"]
                  Sample.head_line Hc)).
Defined.

(** ** Empty parameters *)

Lemma searchTerms_of_falsy (ref : option jsstring) :
  truthy ref = false -> searchTerms_of_ref ref = [].
Proof. intros H. apply falsy_cases in H as [->| ->]; reflexivity. Qed.

Lemma after_fetch_alike (a1 a2 : ResolveArgs) (r : FetchOutcome) :
  owner a1 = owner a2 -> repo a1 = repo a2 ->
  ref a1 = ref a2 \/ (truthy (ref a1) = false /\ truthy (ref a2) = false) ->
  truthy (token a1) = truthy (token a2) ->
  after_fetch a1 r = after_fetch a2 r.
Proof.
  intros Ho Hr Href Ht. destruct r as [resp|e]; [|reflexivity].
  unfold after_fetch. rewrite Ho, Hr, Ht.
  destruct (negb (ok resp)); [reflexivity|].
  destruct Href as [->|[H1 H2]]; [reflexivity|].
  unfold parse, searchTerms.
  now rewrite H1, H2, (searchTerms_of_falsy _ H1), (searchTerms_of_falsy _ H2).
Qed.

(** X12: an empty [ref] is an absent [ref], and an empty token is no
    token: two calls of [resolve] that differ only in that make the same
    call of [fetch] and settle alike. *)
Theorem empty_ref_and_token_as_absent (remote : Remote) (a1 a2 : ResolveArgs) :
  owner a1 = owner a2 -> repo a1 = repo a2 ->
  ref a1 = ref a2 \/ (truthy (ref a1) = false /\ truthy (ref a2) = false) ->
  token a1 = token a2 \/ (truthy (token a1) = false /\ truthy (token a2) = false) ->
  run remote (resolve a1) = run remote (resolve a2).
Proof.
  intros Ho Hr Href Htok.
  assert (Hopts : fetch_opts (token a1) = fetch_opts (token a2)).
  { destruct Htok as [->|[H1 H2]]; [reflexivity|].
    unfold fetch_opts. now rewrite H1, H2. }
  assert (Ht : truthy (token a1) = truthy (token a2)).
  { destruct Htok as [->|[H1 H2]]; congruence. }
  assert (Hurl : info_refs_url a1 = info_refs_url a2).
  { unfold info_refs_url. now rewrite Ho, Hr. }
  unfold resolve. rewrite Ho, Hr, Hopts, Hurl.
  destruct (negb (truthy (owner a2)) || negb (truthy (repo a2))); [reflexivity|].
  destruct (fetch_opts (token a2)) as [e|opts]; [reflexivity|].
  cbn [run]. now rewrite (after_fetch_alike a1 a2 _ Ho Hr Href Ht).
Qed.

Lemma empty_ref_and_token_as_absent_witness :
  truthy (ref (mkArgs (Some (lit "adobe")) (Some (lit "helix-fetch")) (Some []) (Some [])))
  = false
  /\ truthy (token (mkArgs (Some (lit "adobe")) (Some (lit "helix-fetch")) (Some []) (Some [])))
     = false
  /\ run (Sample.answer 200 Sample.advertisement)
       (resolve (mkArgs (Some (lit "adobe")) (Some (lit "helix-fetch")) (Some []) (Some [])))
     = run (Sample.answer 200 Sample.advertisement) (resolve (Sample.args None)).
Proof.
  split; [reflexivity|]. split; [reflexivity|].
  apply (empty_ref_and_token_as_absent (Sample.answer 200 Sample.advertisement)
           (mkArgs (Some (lit "adobe")) (Some (lit "helix-fetch")) (Some []) (Some []))
           (Sample.args None) eq_refl eq_refl
           (or_intror (conj eq_refl eq_refl)) (or_intror (conj eq_refl eq_refl))).
Defined.

(** ** Short names *)



(** ** The token in the [Authorization] header *)

Lemma base64_value_digit (i : N) :
  (i < 64)%N -> base64_value (base64_digit i) = Some i.
Proof.
  intros Hi.
  assert (Hall : forallb
            (fun n => match base64_value (base64_digit (N.of_nat n)) with
                      | Some j => (j =? N.of_nat n)%N
                      | None => false
                      end) (seq 0 64) = true) by (vm_compute; reflexivity).
  rewrite forallb_forall in Hall. specialize (Hall (N.to_nat i)).
  rewrite N2Nat.id in Hall.
  destruct (base64_value (base64_digit i)) as [j|].
  - f_equal. apply N.eqb_eq. apply Hall. apply in_seq. lia.
  - discriminate Hall. apply in_seq. lia.
Qed.

Lemma base64_digit_not_pad (i : N) : (i < 64)%N -> (base64_digit i =? pad)%N = false.
Proof.
  intros Hi. apply N.eqb_neq. intros E.
  pose proof (base64_value_digit i Hi) as H. rewrite E in H.
  vm_compute in H. discriminate H.
Qed.

Lemma list_ind3 {A} (P : list A -> Prop) :
  P [] -> (forall a, P [a]) -> (forall a b, P [a; b]) ->
  (forall a b c l, P l -> P (a :: b :: c :: l)) ->
  forall l, P l.
Proof.
  intros H0 H1 H2 H3 l.
  assert (H : P l /\ (forall a, P (a :: l)) /\ (forall a b, P (a :: b :: l))).
  { induction l as [|c l (IH0 & IH1 & IH2)]; [auto|].
    repeat split; auto. }
  apply H.
Qed.

Section Quads.

Local Ltac Zify.zify_post_hook ::= Z.to_euclidean_division_equations.

Variables a b c : N.
Hypothesis Ha : (a < 256)%N.
Hypothesis Hb : (b < 256)%N.
Hypothesis Hc : (c < 256)%N.

Lemma quad_digits :
  (a / 4 < 64 /\ a mod 4 * 16 + b / 16 < 64
   /\ b mod 16 * 4 + c / 64 < 64 /\ c mod 64 < 64
   /\ a mod 4 * 16 < 64 /\ b mod 16 * 4 < 64)%N.
Proof. repeat split; lia. Qed.

Lemma quad_bytes :
  (a / 4 * 4 + (a mod 4 * 16 + b / 16) / 16 = a
   /\ (a mod 4 * 16 + b / 16) mod 16 * 16 + (b mod 16 * 4 + c / 64) / 4 = b
   /\ (b mod 16 * 4 + c / 64) mod 4 * 64 + c mod 64 = c
   /\ a / 4 * 4 + a mod 4 * 16 / 16 = a
   /\ (a mod 4 * 16 + b / 16) mod 16 * 16 + b mod 16 * 4 / 4 = b)%N.
Proof. repeat split; lia. Qed.

End Quads.

(** Reading back what [base64] wrote gives the bytes. *)
Lemma unbase64_base64 (bs : list N) :
  Forall (fun x => (x < 256)%N) bs -> unbase64 (base64 bs) = Some bs.
Proof.
  induction bs as [|a|a b|a b c bs IH] using list_ind3; intros H.
  - reflexivity.
  - inversion H as [|? ? Ha _]; subst.
    destruct (quad_digits a 0 0 Ha) as (H0 & _ & _ & _ & H1 & _); try lia.
    destruct (quad_bytes a 0 0 Ha) as (_ & _ & _ & E & _); try lia.
    cbn [base64 unbase64]. unfold unbase64_quad.
    rewrite !base64_value_digit, !N.eqb_refl by assumption.
    cbn [app]. now rewrite E.
  - inversion H as [|? ? Ha H']; subst. inversion H' as [|? ? Hb _]; subst.
    destruct (quad_digits a b 0 Ha Hb) as (H0 & H1 & _ & _ & _ & H2); try lia.
    destruct (quad_bytes a b 0 Ha Hb) as (E0 & _ & _ & _ & E1); try lia.
    cbn [base64 unbase64]. unfold unbase64_quad.
    rewrite !base64_value_digit by assumption.
    rewrite (base64_digit_not_pad _ H2), N.eqb_refl.
    cbn [app]. now rewrite E0, E1.
  - inversion H as [|? ? Ha H']; subst. inversion H' as [|? ? Hb H'']; subst.
    inversion H'' as [|? ? Hc Hbs]; subst.
    destruct (quad_digits a b c Ha Hb Hc) as (H0 & H1 & H2 & H3 & _ & _).
    destruct (quad_bytes a b c Ha Hb Hc) as (E0 & E1 & E2 & _ & _).
    cbn [base64 unbase64]. unfold unbase64_quad.
    rewrite !base64_value_digit by assumption.
    rewrite (base64_digit_not_pad _ H2), (base64_digit_not_pad _ H3).
    rewrite (IH Hbs). cbn [app]. now rewrite E0, E1, E2.
Qed.

(** X14: the header of a token of code units below 256 is [Basic]
    followed by a base64 text that reads back as [any_user:<token>]; so
    two such tokens that give the same options of [fetch] are the same
    token. *)
Theorem authorization_keeps_token (t : jsstring) :
  t <> [] -> Forall (fun x => (x < 256)%N) t ->
  (exists b : jsstring,
      fetch_opts (Some t) = inr (mkOpts [(lit "Authorization", lit "Basic " ++ b)])
      /\ unbase64 b = Some (lit "any_user:" ++ t))
  /\ forall t' : jsstring,
       t' <> [] -> Forall (fun x => (x < 256)%N) t' ->
       fetch_opts (Some t) = fetch_opts (Some t') -> t = t'.
Proof.
  assert (Hlatin : forall u : jsstring, Forall (fun x => (x < 256)%N) u ->
            Forall (fun x => (x < 256)%N) (lit "any_user:" ++ u)).
  { intros u Hu. apply Forall_app. split; [|exact Hu].
    apply Forall_forall. intros x Hx. apply N.ltb_lt. revert x Hx.
    apply forallb_forall. vm_compute. reflexivity. }
  assert (Hopts : forall u : jsstring, u <> [] -> Forall (fun x => (x < 256)%N) u ->
            fetch_opts (Some u)
            = inr (mkOpts [(lit "Authorization",
                            lit "Basic " ++ base64 (lit "any_user:" ++ u))])).
  { intros u Hne Hu. unfold fetch_opts, btoa.
    destruct u as [|c u]; [contradiction|]. cbn [truthy template].
    replace (forallb (fun c0 : N => (c0 <? 256)%N) (lit "any_user:" ++ c :: u))
      with true; [reflexivity|].
    symmetry. apply forallb_forall. intros x Hx. apply N.ltb_lt.
    specialize (Hlatin _ Hu). rewrite Forall_forall in Hlatin. now apply Hlatin. }
  intros Hne Ht. split.
  - exists (base64 (lit "any_user:" ++ t)). split; [now apply Hopts|].
    apply unbase64_base64. now apply Hlatin.
  - intros t' Hne' Ht' E. rewrite (Hopts t Hne Ht), (Hopts t' Hne' Ht') in E.
    assert (E' : base64 (lit "any_user:" ++ t) = base64 (lit "any_user:" ++ t')).
    { apply (app_inv_head (lit "Basic ")). congruence. }
    apply (f_equal unbase64) in E'.
    rewrite !unbase64_base64 in E' by now apply Hlatin.
    apply (app_inv_head (lit "any_user:")). congruence.
Qed.

Lemma authorization_keeps_token_witness :
  lit "from-parameter" <> []
  /\ Forall (fun x => (x < 256)%N) (lit "from-parameter")
  /\ exists b : jsstring,
       fetch_opts (Some (lit "from-parameter"))
       = inr (mkOpts [(lit "Authorization", lit "Basic " ++ b)])
       /\ unbase64 b = Some (lit "any_user:" ++ lit "from-parameter").
Proof.
  assert (Hn : lit "from-parameter" <> []) by discriminate.
  assert (Hl : Forall (fun x => (x < 256)%N) (lit "from-parameter")).
  { apply Forall_forall. intros x Hx.
    apply N.ltb_lt. revert x Hx. apply forallb_forall. vm_compute. reflexivity. }
  split; [exact Hn|]. split; [exact Hl|].
  apply (proj1 (authorization_keeps_token (lit "from-parameter") Hn Hl)).
Defined.
